(** * wavefront_pyformance.wavefront_reporter

    A shallow embedding of [WavefrontReporter], [WavefrontProxyReporter]
    and [WavefrontDirectReporter] together with the properties of the
    reporting pipeline: line formatting, metric naming, the delta-counter
    reset-on-read step of the collector, and the two delivery strategies.

    Conventions.
    - Python [str] is [string]; metric values and timestamps are Python
      integers, modelled as [Z] and rendered by [py_str] the way
      ['{}'.format] renders an [int].  Floating-point readings are outside
      the model.
    - [None] is [None] of [option]; Python truthiness is written out
      ([truthy_int], [truthy_str], ...).
    - Dictionaries are association lists in insertion order, since the
      order of the produced lines follows the iteration order.
    - The socket, the HTTP endpoint and the logger are explicit state. *)

From Stdlib Require Import ZArith List String Ascii Bool Lia DecimalString.
Import ListNotations.
Open Scope string_scope.
Open Scope Z_scope.
Set Warnings "-abstract-large-number".

(** ** Python primitives used by the module *)

(** [str(n)] / ['{}'.format(n)] for an integer [n]. *)
Definition py_str (n : Z) : string := NilZero.string_of_int (Z.to_int n).

(** The double-quote character, as a one-character string. *)
Definition dquote : string := String (ascii_of_nat 34) EmptyString.

(** The line feed, as a one-character string. *)
Definition newline : string := String (ascii_of_nat 10) EmptyString.

(** [sep.join(parts)]. *)
Fixpoint join (sep : string) (parts : list string) : string :=
  match parts with
  | [] => EmptyString
  | [x] => x
  | x :: rest => x ++ sep ++ join sep rest
  end.

(** Truthiness of an optional integer: [None] and [0] are falsy. *)
Definition truthy_int (t : option Z) : bool :=
  match t with
  | None => false
  | Some n => negb (n =? 0)
  end.

(** Truthiness of a string: only the empty string is falsy. *)
Definition truthy_str (s : string) : bool :=
  match s with
  | EmptyString => false
  | String _ _ => true
  end.

(** [c in s] for a character [c]. *)
Fixpoint contains (c : ascii) (s : string) : bool :=
  match s with
  | EmptyString => false
  | String x rest => Ascii.eqb x c || contains c rest
  end.

(** The line feed character. *)
Definition LF : ascii := ascii_of_nat 10.

(** Exceptions raised by the module. *)
Inductive exn : Type :=
| NotImplementedError (msg : string)
| ValueError (msg : string).

(** ** class WavefrontReporter *)

(** The attributes [__init__] sets that the formatting code reads. *)
Record WavefrontReporter : Type := mkReporter {
  source : string;
  prefix : string;
  tagStr : string
}.

(** ['"%s"="%s"' % (k, v)] *)
Definition render_tag (kv : string * string) : string :=
  dquote ++ fst kv ++ dquote ++ "=" ++ dquote ++ snd kv ++ dquote.

(** [__init__]: [tags = tags or {}] and the tag string, rendered once. *)
Definition WavefrontReporter_init (src pfx : string)
    (tags : option (list (string * string))) : WavefrontReporter :=
  let tags := match tags with Some t => t | None => [] end in
  mkReporter src pfx (join " " (map render_tag tags)).

(** [WavefrontReporter.report_now]: the base class only raises. *)
Definition WavefrontReporter_report_now {R : Type}
    (self : WavefrontReporter) (registry : option R) (timestamp : option Z)
  : exn + unit :=
  inl (NotImplementedError
         "use WavefrontProxyReporter or WavefrontDirectReporter").

(** [_get_metric_line]: the branch is on the truthiness of [timestamp]. *)
Definition _get_metric_line (self : WavefrontReporter)
    (name : string) (value : Z) (timestamp : option Z) : string :=
  if truthy_int timestamp then
    match timestamp with
    | Some t =>
        name ++ " " ++ py_str value ++ " " ++ py_str t
             ++ " source=" ++ dquote ++ source self ++ dquote
             ++ " " ++ tagStr self
    | None => EmptyString (* unreachable: [None] is falsy *)
    end
  else
    name ++ " " ++ py_str value
         ++ " source=" ++ dquote ++ source self ++ dquote
         ++ " " ++ tagStr self.

(** The two shapes of a line protocol entry, written from the format
    description: [<name> <value> [<timestamp>] source="<source>" <tags>]. *)
Definition line_head (name : string) (value : Z) : string :=
  name ++ " " ++ py_str value.

Definition line_tail (self : WavefrontReporter) : string :=
  " source=" ++ dquote ++ source self ++ dquote ++ " " ++ tagStr self.

Definition line_without_timestamp (self : WavefrontReporter)
    (name : string) (value : Z) : string :=
  line_head name value ++ line_tail self.

Definition line_with_timestamp (self : WavefrontReporter)
    (name : string) (value : Z) (t : Z) : string :=
  line_head name value ++ " " ++ py_str t ++ line_tail self.

Section MetricName.

(** [delta.get_delta_name] lives in the sibling module [delta]; the
    reporter only calls it. *)
Variable get_delta_name : string -> string -> string -> string.

(** [_get_metric_name] *)
Definition _get_metric_name (pfx name value_key : string)
    (is_delta : bool) : string :=
  if is_delta then get_delta_name pfx name value_key
  else pfx ++ name ++ "." ++ value_key.

End MetricName.

(** ** The metrics registry (pyformance collaborator)

    The reporter needs two operations of [pyformance.MetricsRegistry]:
    [dump_metrics()], the snapshot [key -> value_key -> value], and
    [counter(key).dec(amount)].  The registry keeps its counters apart
    from the other metric kinds; a counter dumps as the single entry
    ["count"].  The readings of histograms, meters, timers and gauges
    are kept as already rendered entries, since the reporter never
    changes them.  A key is taken to name one metric. *)

Record MetricsRegistry : Type := mkRegistry {
  counters : list (string * Z);
  readings : list (string * list (string * Z))
}.

Definition snapshot : Type := list (string * list (string * Z)).

Definition counter_entry (c : string * Z) : string * list (string * Z) :=
  (fst c, [("count", snd c)]).

(** [registry.dump_metrics()]: counters first, then the other kinds. *)
Definition dump_metrics (reg : MetricsRegistry) : snapshot :=
  (map counter_entry (counters reg) ++ readings reg)%list.

(** [counter(key)] fetches the counter or registers a fresh one at 0;
    [dec(amount)] subtracts. *)
Fixpoint dec_in (key : string) (amount : Z) (cs : list (string * Z))
  : list (string * Z) :=
  match cs with
  | [] => [(key, 0 - amount)]
  | (k, n) :: rest =>
      if String.eqb k key then (k, n - amount) :: rest
      else (k, n) :: dec_in key amount rest
  end.

Definition counter_dec (key : string) (amount : Z) (reg : MetricsRegistry)
  : MetricsRegistry :=
  mkRegistry (dec_in key amount (counters reg)) (readings reg).

(** [counter(key).get_count()] for a registered counter. *)
Fixpoint count_of (key : string) (cs : list (string * Z)) : option Z :=
  match cs with
  | [] => None
  | (k, n) :: rest => if String.eqb k key then Some n else count_of key rest
  end.

(** ** WavefrontReporter._collect_metrics *)

Section Collector.

(** The two functions of the sibling module [delta]. *)
Variable is_delta_counter : string -> MetricsRegistry -> bool.
Variable get_delta_name : string -> string -> string -> string.

(** The inner loop, [for value_key in metrics[key].keys()]: the value
    subtracted and the value rendered are both [metrics[key][value_key]]
    of the snapshot taken before the loops. *)
Fixpoint collect_values (self : WavefrontReporter) (key : string)
    (is_delta : bool) (timestamp : option Z)
    (values : list (string * Z)) (reg : MetricsRegistry)
  : MetricsRegistry * list string :=
  match values with
  | [] => (reg, [])
  | (value_key, v) :: rest =>
      let reg1 := if is_delta then counter_dec key v reg else reg in
      let metric_name :=
        _get_metric_name get_delta_name (prefix self) key value_key
                         is_delta in
      let metric_line := _get_metric_line self metric_name v timestamp in
      let '(reg2, lines) :=
        collect_values self key is_delta timestamp rest reg1 in
      (reg2, metric_line :: lines)
  end.

(** The outer loop, [for key in metrics.keys()]: the classifier is asked
    once per key, on the registry as it is when the key is reached. *)
Fixpoint collect_keys (self : WavefrontReporter) (timestamp : option Z)
    (metrics : snapshot) (reg : MetricsRegistry)
  : MetricsRegistry * list string :=
  match metrics with
  | [] => (reg, [])
  | (key, values) :: rest =>
      let is_delta := is_delta_counter key reg in
      let '(reg1, lines1) :=
        collect_values self key is_delta timestamp values reg in
      let '(reg2, lines2) := collect_keys self timestamp rest reg1 in
      (reg2, (lines1 ++ lines2)%list)
  end.

(** [_collect_metrics]: the registry after the decrements, and
    [metrics_data]. *)
Definition _collect_metrics (self : WavefrontReporter)
    (reg : MetricsRegistry) (timestamp : option Z)
  : MetricsRegistry * list string :=
  collect_keys self timestamp (dump_metrics reg) reg.

(** The registry after the inner loop of a delta key. *)
Definition dec_all (key : string) (values : list (string * Z))
    (reg : MetricsRegistry) : MetricsRegistry :=
  fold_left (fun r kv => counter_dec key (snd kv) r) values reg.

(** The line rendered for one snapshot entry. *)
Definition entry_line (self : WavefrontReporter) (key : string)
    (is_delta : bool) (timestamp : option Z) (kv : string * Z) : string :=
  _get_metric_line self
    (_get_metric_name get_delta_name (prefix self) key (fst kv) is_delta)
    (snd kv) timestamp.

(** The lines of a snapshot when the classifier looks at the key only. *)
Definition snapshot_lines (is_delta_key : string -> bool)
    (self : WavefrontReporter) (timestamp : option Z)
    (metrics : snapshot) : list string :=
  flat_map (fun entry =>
              map (entry_line self (fst entry)
                              (is_delta_key (fst entry)) timestamp)
                  (snd entry))
           metrics.

End Collector.

(** The timestamp segment a line gets for a timestamp argument: none for
    [None] and for 0. *)
Definition segment_of (timestamp : option Z) : option Z :=
  if truthy_int timestamp then timestamp else None.

(** A line with the given timestamp segment, or with none. *)
Definition stamped_line (self : WavefrontReporter) (name : string)
    (value : Z) (segment : option Z) : string :=
  match segment with
  | None => line_head name value ++ line_tail self
  | Some t => line_head name value ++ (" " ++ py_str t) ++ line_tail self
  end.

(** The lines of a snapshot, entry by entry and value by value, given
    for each entry whether it was taken for a delta counter. *)
Definition rendered_lines
    (get_delta_name : string -> string -> string -> string)
    (self : WavefrontReporter) (segment : option Z) (metrics : snapshot)
    (deltas : list bool) : list string :=
  flat_map
    (fun ed : (string * list (string * Z)) * bool =>
       map (fun kv =>
              stamped_line self
                (_get_metric_name get_delta_name (prefix self)
                                  (fst (fst ed)) (fst kv) (snd ed))
                (snd kv) segment)
           (snd (fst ed)))
    (combine metrics deltas).

(** ** class WavefrontProxyReporter *)

Module Proxy.

(** What one socket operation ([connect] or [send]) does: it returns,
    raises [socket.error], or raises something else. *)
Inductive outcome : Type := Succeeds | SocketError | OtherError.

(** The exception caught by [_report_points]. *)
Inductive failure : Type := socket_error | generic_exception.

(** The reporter's socket attribute and its surroundings.
    - [proxy_socket]: [None], or the socket object (numbered in order
      of creation by [socket_factory]);
    - [network]: the outcomes of the socket operations to come, in
      order; once exhausted every operation succeeds;
    - [sockets_made]: how many sockets [socket_factory] has created;
    - [wire]: what reached the peer, per socket, oldest first;
    - [log]: the [logging.error] records, oldest first. *)
Record state : Type := mkState {
  proxy_socket : option nat;
  network : list outcome;
  sockets_made : nat;
  wire : list (nat * string);
  log : list failure
}.

(** Computations that may raise, over [state]. *)
Definition M (A : Type) : Type := state -> (failure + A) * state.

Definition ret {A : Type} (a : A) : M A := fun st => (inr a, st).

Definition bind {A B : Type} (m : M A) (k : A -> M B) : M B :=
  fun st =>
    match m st with
    | (inl e, st1) => (inl e, st1)
    | (inr a, st1) => k a st1
    end.

Notation "m ;; k" := (bind m (fun _ => k))
  (at level 61, right associativity).

(** What an operation raises, if anything. *)
Definition raised (o : outcome) : option failure :=
  match o with
  | Succeeds => None
  | SocketError => Some socket_error
  | OtherError => Some generic_exception
  end.

(** The next socket operation, decided by [network]. *)
Definition attempt : M unit := fun st =>
  match network st with
  | [] => (inr tt, st)
  | o :: rest =>
      let st1 := mkState (proxy_socket st) rest (sockets_made st)
                         (wire st) (log st) in
      match raised o with
      | None => (inr tt, st1)
      | Some e => (inl e, st1)
      end
  end.

(** [_connect]: the attribute is assigned before [connect] is called,
    so it stays assigned when [connect] raises. *)
Definition _connect : M unit := fun st =>
  attempt (mkState (Some (sockets_made st)) (network st)
                   (S (sockets_made st)) (wire st) (log st)).

(** [self.proxy_socket.send(line.encode('utf-8') + b'\n')] *)
Definition send (line : string) : M unit := fun st =>
  match proxy_socket st with
  | None => (inl generic_exception, st) (* [None] has no [send] *)
  | Some sock =>
      match attempt st with
      | (inr _, st1) =>
          (inr tt, mkState (proxy_socket st1) (network st1)
                           (sockets_made st1)
                           (wire st1 ++ [(sock, (line ++ newline)%string)])%list
                           (log st1))
      | (inl e, st1) => (inl e, st1)
      end
  end.

(** [for line in metrics: ...send(...)] *)
Fixpoint send_all (metrics : list string) : M unit :=
  match metrics with
  | [] => ret tt
  | line :: rest => send line ;; send_all rest
  end.

(** The body of the [try]. *)
Definition try_body (metrics : list string) : M unit := fun st =>
  ((match proxy_socket st with
    | None => _connect
    | Some _ => ret tt
    end) ;; send_all metrics) st.

Definition logging_error (e : failure) (st : state) : state :=
  mkState (proxy_socket st) (network st) (sockets_made st) (wire st)
          (log st ++ [e])%list.

Definition forget_socket (st : state) : state :=
  mkState None (network st) (sockets_made st) (wire st) (log st).

(** [_report_points(metrics, reconnect=False)]: both handlers log. *)
Definition _report_points_last (metrics : list string) (st : state)
  : state :=
  match try_body metrics st with
  | (inr _, st1) => st1
  | (inl e, st1) => logging_error e st1
  end.

(** [_report_points(metrics, reconnect)].  The only recursive call
    passes [reconnect=False], which is [_report_points_last]. *)
Definition _report_points (metrics : list string) (reconnect : bool)
    (st : state) : state :=
  match try_body metrics st with
  | (inr _, st1) => st1
  | (inl socket_error, st1) =>
      if reconnect then _report_points_last metrics (forget_socket st1)
      else logging_error socket_error st1
  | (inl generic_exception, st1) => logging_error generic_exception st1
  end.

(** [report_now]: [timestamp or int(round(self.clock.time()))], with
    [now] the rounded clock reading; [registry or self.registry] is
    resolved by the caller to the registry [reg]. *)
Definition report_now
    (is_delta_counter : string -> MetricsRegistry -> bool)
    (get_delta_name : string -> string -> string -> string)
    (self : WavefrontReporter) (now : Z)
    (reg : MetricsRegistry) (timestamp : option Z) (st : state)
  : MetricsRegistry * state :=
  let timestamp := if truthy_int timestamp then timestamp else Some now in
  let '(reg1, metrics) :=
    _collect_metrics is_delta_counter get_delta_name self reg timestamp in
  match metrics with
  | [] => (reg1, st)
  | _ :: _ => (reg1, _report_points metrics true st)
  end.

(** The lines of [lines] as the peer receives them from socket [sock]. *)
Definition send_as (sock : nat) (lines : list string)
  : list (nat * string) :=
  map (fun line => (sock, line ++ newline)) lines.

(** Operations one attempt performs when nothing fails. *)
Definition attempt_size (st : state) (metrics : list string) : nat :=
  match proxy_socket st with
  | None => S (List.length metrics)
  | Some _ => List.length metrics
  end.

(** The socket in use during an attempt started in [st]. *)
Definition socket_in_use (st : state) : nat :=
  match proxy_socket st with
  | None => sockets_made st
  | Some sock => sock
  end.

(** Sockets created once an attempt started in [st] is over. *)
Definition made_after (st : state) : nat :=
  match proxy_socket st with
  | None => S (sockets_made st)
  | Some _ => sockets_made st
  end.

(** Sends that succeed before operation number [i] of an attempt. *)
Definition sends_before (st : state) (i : nat) : nat :=
  match proxy_socket st with
  | None => pred i
  | Some _ => i
  end.

End Proxy.

(** ** class WavefrontDirectReporter *)

Module Direct.

(** The two components of [urlparse(server)] that are inspected. *)
Record ParseResult : Type := mkParse {
  scheme : string;
  netloc : string
}.

(** What [requests.post] does: it returns a response with a status
    code, or raises (connection refused, timeout, ...). *)
Inductive response : Type := Status (code : Z) | TransportError.

(** The exception caught and logged by [_report_points]. *)
Inductive error : Type := HTTPError (code : Z) | RequestException.

Record request : Type := mkRequest {
  url : string;
  params : list (string * string);
  headers : list (string * string);
  data : string
}.

(** The endpoint and the logger.
    - [endpoint]: what the POST calls to come do, in order; once
      exhausted every call is answered 200;
    - [posted]: the POST calls made, oldest first;
    - [log]: the [logging.error] records, oldest first. *)
Record state : Type := mkState {
  endpoint : list response;
  posted : list request;
  log : list error
}.

(** The attributes set by [__init__]. *)
Record WavefrontDirectReporter : Type := mkDirect {
  base : WavefrontReporter;
  server : string;
  token : string;
  batch_size : Z;
  self_headers : list (string * string);
  self_params : list (string * string)
}.

Section Validation.

(** [urllib.parse.urlparse], of the standard library: it returns the
    parsed components or raises. *)
Variable urlparse : string -> exn + ParseResult.

(** [_validate_url]: what [urlparse] raises is not caught;
    [all((scheme, netloc))] is the truthiness of both strings. *)
Definition _validate_url (srv : string) : exn + string :=
  match urlparse srv with
  | inl e => inl e
  | inr parsed_url =>
      if negb (truthy_str (scheme parsed_url)
               && truthy_str (netloc parsed_url))
      then inl (ValueError "invalid server url")
      else inr srv
  end.

(** [__init__]: the base attributes, then the validated server. *)
Definition init (srv tok src pfx : string)
    (tags : option (list (string * string)))
  : exn + WavefrontDirectReporter :=
  let b := WavefrontReporter_init src pfx tags in
  match _validate_url srv with
  | inl e => inl e
  | inr validated =>
      inr (mkDirect b validated tok 10000
                    [("Content-Type", "text/plain");
                     ("Authorization", "Bearer " ++ tok)]
                    [("f", "graphite_v2")])
  end.

End Validation.

(** *** A model of [urlparse]

    The steps of CPython's [urllib.parse.urlsplit] that decide the
    scheme and the network location, in their order:
    - leading characters up to U+0020 are stripped, then every tab,
      line feed and carriage return is removed;
    - the text before the first colon is the scheme, lower-cased, when
      it starts with an ASCII letter and consists of scheme characters;
    - a network location follows a leading [//] and ends at the first
      [/], [?] or [#];
    - a network location with one kind of bracket only raises
      [ValueError("Invalid IPv6 URL")];
    - a network location with both brackets is checked with [ipaddress],
      and one with non-ASCII characters by [_checknetloc]; what these
      two checks raise is left to the two parameters below. *)

Definition in_range (lo hi : nat) (c : ascii) : bool :=
  (Nat.leb lo (nat_of_ascii c) && Nat.leb (nat_of_ascii c) hi)%bool.

Definition is_alpha (c : ascii) : bool :=
  in_range 65 90 c || in_range 97 122 c.

Definition is_scheme_char (c : ascii) : bool :=
  is_alpha c || in_range 48 57 c
  || Ascii.eqb c "+" || Ascii.eqb c "-" || Ascii.eqb c ".".

Definition lower_char (c : ascii) : ascii :=
  if in_range 65 90 c then ascii_of_nat (nat_of_ascii c + 32) else c.

Fixpoint lower (s : string) : string :=
  match s with
  | EmptyString => EmptyString
  | String c rest => String (lower_char c) (lower rest)
  end.

Fixpoint all_chars (p : ascii -> bool) (s : string) : bool :=
  match s with
  | EmptyString => true
  | String c rest => p c && all_chars p rest
  end.

(** [url.lstrip(_WHATWG_C0_CONTROL_OR_SPACE)] *)
Fixpoint lstrip_c0 (s : string) : string :=
  match s with
  | EmptyString => EmptyString
  | String c rest => if in_range 0 32 c then lstrip_c0 rest else s
  end.

(** Tab, line feed, carriage return. *)
Definition is_unsafe (c : ascii) : bool :=
  Nat.eqb (nat_of_ascii c) 9 || Nat.eqb (nat_of_ascii c) 10
  || Nat.eqb (nat_of_ascii c) 13.

(** [url.replace(b, "")] for [b] in [_UNSAFE_URL_BYTES_TO_REMOVE]. *)
Fixpoint remove_unsafe (s : string) : string :=
  match s with
  | EmptyString => EmptyString
  | String c rest =>
      if is_unsafe c then remove_unsafe rest
      else String c (remove_unsafe rest)
  end.

(** [url[:i]] and [url[i+1:]] for [i = url.find(':')], if any. *)
Fixpoint split_colon (s : string) : option (string * string) :=
  match s with
  | EmptyString => None
  | String c rest =>
      if Ascii.eqb c ":" then Some (EmptyString, rest)
      else match split_colon rest with
           | Some (before, after) => Some (String c before, after)
           | None => None
           end
  end.

(** The scheme, if the text starts with one, and the text after it. *)
Definition split_scheme (u : string) : string * string :=
  match split_colon u with
  | Some (String c before, after) =>
      if is_alpha c && all_chars is_scheme_char before
      then (lower (String c before), after)
      else (EmptyString, u)
  | _ => (EmptyString, u)
  end.

(** [url[2:]] when [url[:2] == '//']. *)
Definition after_slashes (s : string) : option string :=
  match s with
  | String a (String b rest) =>
      if Ascii.eqb a "/" && Ascii.eqb b "/" then Some rest else None
  | _ => None
  end.

(** The text up to the first of [/], [?], [#]. *)
Fixpoint take_netloc (s : string) : string :=
  match s with
  | EmptyString => EmptyString
  | String c rest =>
      if Ascii.eqb c "/" || Ascii.eqb c "?" || Ascii.eqb c "#"
      then EmptyString
      else String c (take_netloc rest)
  end.

(** [netloc.isascii()] *)
Definition isascii (s : string) : bool := all_chars (in_range 0 127) s.

Section Parser.

(** What the check of a network location with both brackets raises,
    if anything. *)
Variable check_bracketed_netloc : string -> option exn.

(** What [_checknetloc] raises for a network location with non-ASCII
    characters, if anything. *)
Variable checknetloc : string -> option exn.

Definition urlsplit (u : string) : exn + ParseResult :=
  let url := remove_unsafe (lstrip_c0 u) in
  let '(sch, rest) := split_scheme url in
  match after_slashes rest with
  | None => inr (mkParse sch EmptyString)
  | Some rest2 =>
      let net := take_netloc rest2 in
      if xorb (contains "[" net) (contains "]" net)
      then inl (ValueError "Invalid IPv6 URL")
      else
        match (if contains "[" net && contains "]" net
               then check_bracketed_netloc net else None) with
        | Some e => inl e
        | None =>
            match (if isascii net then None else checknetloc net) with
            | Some e => inl e
            | None => inr (mkParse sch net)
            end
        end
  end.

End Parser.

(** [range(0, stop, step)] for [stop >= 0]: [start], [start + step],
    ... taken [count] times. *)
Fixpoint range_from (count start step : nat) : list nat :=
  match count with
  | O => []
  | S c => start :: range_from c (start + step) step
  end.

Definition range (stop : nat) (step : Z) : exn + list nat :=
  if step =? 0 then inl (ValueError "range() arg 3 must not be zero")
  else if step <? 0 then inr []
  else inr (range_from (Z.to_nat ((Z.of_nat stop + step - 1) / step))
                       0 (Z.to_nat step)).

(** [metrics[i:j]] for [0 <= i <= j]. *)
Definition slice (metrics : list string) (i j : nat) : list string :=
  firstn (j - i) (skipn i metrics).

(** [_get_chunks]: the slices the generator yields, in order. *)
Definition _get_chunks (metrics : list string) (chunk_size : Z)
  : exn + list (list string) :=
  match range (List.length metrics) chunk_size with
  | inl e => inl e
  | inr starts =>
      inr (map (fun i => slice metrics i (i + Z.to_nat chunk_size))
               starts)
  end.

(** [response.raise_for_status()]: raises for a 4xx or 5xx status. *)
Definition raise_for_status (code : Z) : bool :=
  (400 <=? code) && (code <? 600).

(** [_report_points]: one POST; whatever is raised is logged. *)
Definition _report_points (self : WavefrontDirectReporter)
    (points : string) (st : state) : state :=
  let req := mkRequest (server self ++ "/report") (self_params self)
                       (self_headers self) points in
  let answer := match endpoint st with
                | [] => Status 200
                | r :: _ => r
                end in
  let st1 := mkState (tl (endpoint st)) (posted st ++ [req])%list
                     (log st) in
  match answer with
  | Status code =>
      if raise_for_status code
      then mkState (endpoint st1) (posted st1)
                   (log st1 ++ [HTTPError code])%list
      else st1
  | TransportError =>
      mkState (endpoint st1) (posted st1)
              (log st1 ++ [RequestException])%list
  end.

(** [for chunk in chunks: ...] *)
Fixpoint report_chunks (self : WavefrontDirectReporter)
    (chunks : list (list string)) (st : state) : state :=
  match chunks with
  | [] => st
  | chunk :: rest =>
      let metrics_str := join newline chunk in
      report_chunks self rest (_report_points self metrics_str st)
  end.

(** [report_now]: the collector is called without a timestamp;
    [registry or self.registry] is resolved by the caller to [reg]. *)
Definition report_now
    (is_delta_counter : string -> MetricsRegistry -> bool)
    (get_delta_name : string -> string -> string -> string)
    (self : WavefrontDirectReporter)
    (reg : MetricsRegistry) (timestamp : option Z) (st : state)
  : MetricsRegistry * (exn + state) :=
  let '(reg1, metrics) :=
    _collect_metrics is_delta_counter get_delta_name (base self) reg
                     None in
  match metrics with
  | [] => (reg1, inr st)
  | _ :: _ =>
      match _get_chunks metrics (batch_size self) with
      | inl e => (reg1, inl e)
      | inr chunks => (reg1, inr (report_chunks self chunks st))
      end
  end.

(** The POST call made for one chunk. *)
Definition request_for (self : WavefrontDirectReporter)
    (chunk : list string) : request :=
  mkRequest (server self ++ "/report") (self_params self)
            (self_headers self) (join newline chunk).

(** What [_report_points] logs for an answer, if anything. *)
Definition error_of (answer : response) : option error :=
  match answer with
  | Status code =>
      if raise_for_status code then Some (HTTPError code) else None
  | TransportError => Some RequestException
  end.

(** The answer to POST number [i] (from 0) of a run started with the
    endpoint [ep]. *)
Definition answer_at (ep : list response) (i : nat) : response :=
  nth i ep (Status 200).

(** The log records of a run of [count] POST calls. *)
Definition errors_of (ep : list response) (count : nat) : list error :=
  flat_map (fun i => match error_of (answer_at ep i) with
                     | Some e => [e]
                     | None => []
                     end)
           (seq 0 count).

End Direct.

(** * Properties *)

(** ** Strings *)

Lemma length_append (a b : string) :
  String.length (a ++ b) = (String.length a + String.length b)%nat.
Proof.
  induction a as [|c a IH]; simpl; [reflexivity | now rewrite IH].
Qed.

Lemma append_assoc (a b c : string) : (a ++ b) ++ c = a ++ b ++ c.
Proof.
  induction a as [|x a IH]; simpl; [reflexivity | now rewrite IH].
Qed.

(** ** The line formatter *)

Lemma line_falsy (self : WavefrontReporter) (name : string) (value : Z)
    (timestamp : option Z) :
  truthy_int timestamp = false ->
  _get_metric_line self name value timestamp
  = line_without_timestamp self name value.
Proof.
  intros H. unfold _get_metric_line. rewrite H.
  unfold line_without_timestamp, line_head, line_tail.
  now rewrite !append_assoc.
Qed.

Lemma line_truthy (self : WavefrontReporter) (name : string) (value t : Z) :
  t <> 0 ->
  _get_metric_line self name value (Some t)
  = line_with_timestamp self name value t.
Proof.
  intros H. unfold _get_metric_line. simpl.
  destruct (Z.eqb_spec t 0) as [E|_]; [contradiction|]. simpl.
  unfold line_with_timestamp, line_head, line_tail.
  now rewrite !append_assoc.
Qed.

Lemma with_timestamp_longer (self : WavefrontReporter) (name : string)
    (value t : Z) :
  line_with_timestamp self name value t
  <> line_without_timestamp self name value.
Proof.
  intros E. apply (f_equal String.length) in E.
  unfold line_with_timestamp, line_without_timestamp in E.
  rewrite !length_append in E. simpl in E. lia.
Qed.

(** C4, as stated: the timestamp segment is left out exactly when no
    timestamp is passed.  This fails for the timestamp [0], which is
    passed and yet left out. *)
Lemma C4_timestamp_zero_is_omitted :
  ~ (forall (self : WavefrontReporter) (name : string) (value : Z)
            (timestamp : option Z),
        _get_metric_line self name value timestamp
        = line_without_timestamp self name value
        <-> timestamp = None).
Proof.
  intros H.
  destruct (H (mkReporter "host1" "direct." EmptyString)
              "requests.count" 42 (Some 0)) as [H1 _].
  discriminate (H1 eq_refl).
Qed.

(** C4, amended: the line leaves the timestamp segment out exactly when
    the timestamp is [None] or [0]; with any other timestamp the line is
    the line without timestamp with the segment [" <timestamp>"] put
    between the value and the source, and nothing else changed. *)
Theorem C4_timestamp_segment :
  forall (self : WavefrontReporter) (name : string) (value : Z)
         (timestamp : option Z),
    (_get_metric_line self name value timestamp
     = line_without_timestamp self name value
     <-> (timestamp = None \/ timestamp = Some 0))
    /\ _get_metric_line self name value timestamp
       = match timestamp with
         | None => line_head name value ++ line_tail self
         | Some t =>
             if t =? 0 then line_head name value ++ line_tail self
             else line_head name value ++ (" " ++ py_str t)
                    ++ line_tail self
         end.
Proof.
  intros self name value timestamp.
  destruct timestamp as [t|].
  - destruct (Z.eqb_spec t 0) as [->|Hne].
    + split; [|now rewrite line_falsy].
      split; [now right | intros _; now rewrite line_falsy].
    + rewrite line_truthy by assumption. split.
      * split.
        -- intros E. now apply with_timestamp_longer in E.
        -- intros [E|E]; [discriminate | congruence].
      * unfold line_with_timestamp. now rewrite !append_assoc.
  - split; [|now rewrite line_falsy].
    split; [now left | intros _; now rewrite line_falsy].
Qed.

(** ** The base class *)

(** C10: [report_now] of the base reporter raises [NotImplementedError]
    whatever registry and timestamp it is given. *)
Theorem C10_base_report_now_raises :
  forall (R : Type) (self : WavefrontReporter) (registry : option R)
         (timestamp : option Z),
    WavefrontReporter_report_now self registry timestamp
    = inl (NotImplementedError
             "use WavefrontProxyReporter or WavefrontDirectReporter").
Proof. reflexivity. Qed.

(** ** The collector *)

Section CollectorFacts.

Variable is_delta_counter : string -> MetricsRegistry -> bool.
Variable get_delta_name : string -> string -> string -> string.

Lemma collect_values_eq (self : WavefrontReporter) (key : string)
    (is_delta : bool) (timestamp : option Z) (values : list (string * Z)) :
  forall reg,
    collect_values get_delta_name self key is_delta timestamp values reg
    = (if is_delta then dec_all key values reg else reg,
       map (entry_line get_delta_name self key is_delta timestamp) values).
Proof.
  induction values as [|[value_key v] rest IH]; intros reg; simpl.
  - now destruct is_delta.
  - rewrite IH. destruct is_delta; reflexivity.
Qed.

Lemma collect_keys_cons (self : WavefrontReporter)
    (timestamp : option Z) (key : string) (values : list (string * Z))
    (rest : snapshot) (reg : MetricsRegistry) :
  collect_keys is_delta_counter get_delta_name self timestamp
               ((key, values) :: rest) reg
  = let d := is_delta_counter key reg in
    let reg1 := if d then dec_all key values reg else reg in
    let r := collect_keys is_delta_counter get_delta_name self timestamp
                          rest reg1 in
    (fst r, (map (entry_line get_delta_name self key d timestamp) values ++ snd r)%list).
Proof.
  simpl. rewrite collect_values_eq.
  destruct (collect_keys _ _ _ _ rest _). reflexivity.
Qed.

End CollectorFacts.

Lemma collect_keys_by_key
    (get_delta_name : string -> string -> string -> string)
    (is_delta_key : string -> bool) (self : WavefrontReporter)
    (timestamp : option Z) (metrics : snapshot) :
  forall reg,
    snd (collect_keys (fun key _ => is_delta_key key) get_delta_name self
                      timestamp metrics reg)
    = snapshot_lines get_delta_name is_delta_key self timestamp metrics.
Proof.
  induction metrics as [|[key values] rest IH]; intros reg.
  - reflexivity.
  - rewrite collect_keys_cons. cbn [snd fst snapshot_lines flat_map].
    now rewrite IH.
Qed.

(** C7: the name of a non-delta metric is [prefix ++ key ++ "." ++
    value_key], the name of a delta metric is what [get_delta_name]
    returns for the same three strings; every line of the inner loop is
    rendered under that name, and so is every line of the collector when
    the classifier decides by the key. *)
Theorem C7_wire_name :
  forall (get_delta_name : string -> string -> string -> string)
         (self : WavefrontReporter) (key value_key : string),
    _get_metric_name get_delta_name (prefix self) key value_key false
    = prefix self ++ key ++ "." ++ value_key
    /\ _get_metric_name get_delta_name (prefix self) key value_key true
       = get_delta_name (prefix self) key value_key
    /\ (forall is_delta timestamp values reg,
           snd (collect_values get_delta_name self key is_delta timestamp
                               values reg)
           = map (fun kv =>
                    _get_metric_line self
                      (if is_delta
                       then get_delta_name (prefix self) key (fst kv)
                       else prefix self ++ key ++ "." ++ fst kv)
                      (snd kv) timestamp)
                 values)
    /\ (forall is_delta_key timestamp reg,
           snd (_collect_metrics (fun k _ => is_delta_key k) get_delta_name
                                 self reg timestamp)
           = flat_map
               (fun entry =>
                  map (fun kv =>
                         _get_metric_line self
                           (if is_delta_key (fst entry)
                            then get_delta_name (prefix self) (fst entry)
                                                (fst kv)
                            else prefix self ++ fst entry ++ "." ++ fst kv)
                           (snd kv) timestamp)
                      (snd entry))
               (dump_metrics reg)).
Proof.
  intros get_delta_name self key value_key.
  split; [reflexivity|]. split; [reflexivity|]. split.
  - intros is_delta timestamp values reg.
    rewrite collect_values_eq. cbn [snd].
    apply map_ext. intros kv. unfold entry_line, _get_metric_name.
    now destruct is_delta.
  - intros is_delta_key timestamp reg. unfold _collect_metrics.
    rewrite collect_keys_by_key. unfold snapshot_lines.
    apply flat_map_ext. intros entry. apply map_ext. intros kv.
    unfold entry_line, _get_metric_name.
    now destruct (is_delta_key (fst entry)).
Qed.

(** C8: the registry with the single counter [requests] at 42, prefix
    ["direct."], source ["host1"], no tags, no timestamp and [requests]
    not classified as a delta counter, gives the one line
    [direct.requests.count 42 source="host1" ], trailing space included,
    and leaves the registry as it was. *)
Theorem C8_end_to_end :
  forall (is_delta_counter : string -> MetricsRegistry -> bool)
         (get_delta_name : string -> string -> string -> string),
    is_delta_counter "requests" (mkRegistry [("requests", 42)] []) = false ->
    _collect_metrics is_delta_counter get_delta_name
      (WavefrontReporter_init "host1" "direct." None)
      (mkRegistry [("requests", 42)] []) None
    = (mkRegistry [("requests", 42)] [],
       ["direct.requests.count 42 source=" ++ dquote ++ "host1" ++ dquote
          ++ " "]).
Proof.
  intros is_delta_counter get_delta_name H.
  unfold _collect_metrics, dump_metrics. simpl. rewrite H. reflexivity.
Qed.

Lemma C8_end_to_end_witness :
  (fun (_ : string) (_ : MetricsRegistry) => false)
    "requests" (mkRegistry [("requests", 42)] []) = false
  /\ _collect_metrics (fun _ _ => false) (fun p k v => p ++ k ++ v)
       (WavefrontReporter_init "host1" "direct." None)
       (mkRegistry [("requests", 42)] []) None
     = (mkRegistry [("requests", 42)] [],
        ["direct.requests.count 42 source=" ++ dquote ++ "host1" ++ dquote
           ++ " "]).
Proof.
  split; [reflexivity|].
  apply (C8_end_to_end (fun _ _ => false) (fun p k v => p ++ k ++ v)).
  reflexivity.
Defined.

(** ** Direct delivery *)

(** C6: [_validate_url] returns the server string when the parser
    returns a scheme and a network location that are both non-empty; it
    raises [ValueError] when one of them is empty, and what the parser
    raises when the parser raises; [__init__] yields a reporter in the
    first case only; under the standard parser ["not-a-url"] is
    refused. *)
Theorem C6_server_url_is_validated :
  (forall (urlparse : string -> exn + Direct.ParseResult) (srv : string),
      Direct._validate_url urlparse srv
      = match urlparse srv with
        | inl e => inl e
        | inr parsed =>
            if truthy_str (Direct.scheme parsed)
               && truthy_str (Direct.netloc parsed)
            then inr srv
            else inl (ValueError "invalid server url")
        end)
  /\ (forall (urlparse : string -> exn + Direct.ParseResult)
             (srv tok src pfx : string) tags,
         Direct.init urlparse srv tok src pfx tags
         = match urlparse srv with
           | inl e => inl e
           | inr parsed =>
               if truthy_str (Direct.scheme parsed)
                  && truthy_str (Direct.netloc parsed)
               then inr (Direct.mkDirect
                           (WavefrontReporter_init src pfx tags)
                           srv tok 10000
                           [("Content-Type", "text/plain");
                            ("Authorization", "Bearer " ++ tok)]
                           [("f", "graphite_v2")])
               else inl (ValueError "invalid server url")
           end)
  /\ (forall (check_bracketed_netloc checknetloc : string -> option exn)
             (tok src pfx : string) tags,
         Direct.init (Direct.urlsplit check_bracketed_netloc checknetloc)
                     "not-a-url" tok src pfx tags
         = inl (ValueError "invalid server url")).
Proof.
  split; [|split].
  - intros urlparse srv. unfold Direct._validate_url.
    destruct (urlparse srv) as [e|parsed]; [reflexivity|].
    now destruct (truthy_str _ && truthy_str _).
  - intros urlparse srv tok src pfx tags.
    unfold Direct.init, Direct._validate_url.
    destruct (urlparse srv) as [e|parsed]; [reflexivity|].
    now destruct (truthy_str _ && truthy_str _).
  - reflexivity.
Qed.

Lemma answer_at_tl (ep : list Direct.response) (i : nat) :
  Direct.answer_at ep (S i) = Direct.answer_at (tl ep) i.
Proof.
  unfold Direct.answer_at. destruct ep as [|r ep]; [now destruct i|].
  reflexivity.
Qed.

Lemma errors_of_S (ep : list Direct.response) (count : nat) :
  Direct.errors_of ep (S count)
  = ((match Direct.error_of (Direct.answer_at ep 0) with
      | Some e => [e]
      | None => []
      end) ++ Direct.errors_of (tl ep) count)%list.
Proof.
  unfold Direct.errors_of. cbn [seq flat_map]. f_equal.
  rewrite <- seq_shift, flat_map_concat_map, map_map,
    <- flat_map_concat_map.
  apply flat_map_ext. intros i. now rewrite answer_at_tl.
Qed.

Lemma report_points_run (self : Direct.WavefrontDirectReporter)
    (points : string) (st : Direct.state) :
  Direct._report_points self points st
  = Direct.mkState
      (tl (Direct.endpoint st))
      (Direct.posted st
         ++ [Direct.mkRequest (Direct.server self ++ "/report")
               (Direct.self_params self) (Direct.self_headers self)
               points])%list
      (Direct.log st
         ++ match Direct.error_of (Direct.answer_at (Direct.endpoint st) 0)
            with
            | Some e => [e]
            | None => []
            end)%list.
Proof.
  unfold Direct._report_points, Direct.answer_at, Direct.error_of.
  destruct st as [[|[code|] ep] posted log]; cbn.
  - now rewrite app_nil_r.
  - destruct (Direct.raise_for_status code); cbn;
      [reflexivity | now rewrite app_nil_r].
  - reflexivity.
Qed.

Lemma report_chunks_run (self : Direct.WavefrontDirectReporter)
    (chunks : list (list string)) :
  forall st,
    Direct.report_chunks self chunks st
    = Direct.mkState
        (skipn (List.length chunks) (Direct.endpoint st))
        (Direct.posted st ++ map (Direct.request_for self) chunks)%list
        (Direct.log st
           ++ Direct.errors_of (Direct.endpoint st) (List.length chunks))%list.
Proof.
  induction chunks as [|chunk rest IH]; intros st.
  - destruct st as [ep posted log]. cbn. now rewrite !app_nil_r.
  - cbn [Direct.report_chunks]. rewrite IH, report_points_run.
    cbn [Direct.endpoint Direct.posted Direct.log List.length map].
    rewrite errors_of_S, <- !app_assoc. f_equal.
    destruct (Direct.endpoint st); [now rewrite !skipn_nil | reflexivity].
Qed.

(** C5, as stated: every answer outside 2xx is logged.  An answer 304
    is not. *)
Lemma C5_status_304_is_not_logged :
  ~ (forall (self : Direct.WavefrontDirectReporter) (points : string)
            (code : Z) (posted : list Direct.request)
            (log : list Direct.error),
        (code < 200 \/ 300 <= code) ->
        Direct.log (Direct._report_points self points
                      (Direct.mkState [Direct.Status code] posted log))
        = (log ++ [Direct.HTTPError code])%list).
Proof.
  intros H.
  assert (Hcode : 304 < 200 \/ 300 <= 304) by lia.
  specialize (H (Direct.mkDirect (mkReporter "host1" "direct." EmptyString)
                   "https://metrics.wavefront.com" "token" 10000 [] [])
                "direct.requests.count 42" 304 [] [] Hcode).
  discriminate H.
Qed.

(** C5, amended: in one cycle every chunk is posted, in order, whatever
    the answers to the other chunks; the answer to a chunk decides alone
    whether that chunk is logged: a 4xx or 5xx status or a transport
    error adds one record, any other answer adds none; nothing is
    retried. *)
Theorem C5_chunk_isolation :
  forall (self : Direct.WavefrontDirectReporter)
         (chunks : list (list string)) (st : Direct.state),
    Direct.posted (Direct.report_chunks self chunks st)
    = (Direct.posted st ++ map (Direct.request_for self) chunks)%list
    /\ Direct.log (Direct.report_chunks self chunks st)
       = (Direct.log st
            ++ flat_map
                 (fun i =>
                    match nth i (Direct.endpoint st) (Direct.Status 200) with
                    | Direct.Status code =>
                        if (400 <=? code) && (code <? 600)
                        then [Direct.HTTPError code] else []
                    | Direct.TransportError => [Direct.RequestException]
                    end)
                 (seq 0 (List.length chunks)))%list
    /\ Direct.endpoint (Direct.report_chunks self chunks st)
       = skipn (List.length chunks) (Direct.endpoint st).
Proof.
  intros self chunks st. rewrite report_chunks_run. cbn.
  split; [reflexivity|]. split; [|reflexivity].
  f_equal. unfold Direct.errors_of. apply flat_map_ext. intros i.
  unfold Direct.error_of, Direct.answer_at, Direct.raise_for_status.
  destruct (nth i _ _) as [code|]; [|reflexivity].
  now destruct ((400 <=? code) && (code <? 600)).
Qed.

Lemma get_metric_line_stamped (self : WavefrontReporter) (name : string)
    (value : Z) (timestamp : option Z) :
  _get_metric_line self name value timestamp
  = stamped_line self name value (segment_of timestamp).
Proof.
  unfold segment_of. destruct (truthy_int timestamp) eqn:Ht.
  - destruct timestamp as [t|]; [|discriminate Ht].
    rewrite line_truthy by (intros ->; discriminate Ht).
    unfold line_with_timestamp, stamped_line. now rewrite !append_assoc.
  - now rewrite line_falsy.
Qed.

(** The collected lines are the rendered lines of the snapshot, under
    the classifier's answers. *)
Lemma collect_keys_rendered
    (is_delta_counter : string -> MetricsRegistry -> bool)
    (get_delta_name : string -> string -> string -> string)
    (self : WavefrontReporter) (timestamp : option Z) (metrics : snapshot) :
  forall reg,
    exists deltas : list bool,
      List.length deltas = List.length metrics
      /\ snd (collect_keys is_delta_counter get_delta_name self timestamp
                           metrics reg)
         = rendered_lines get_delta_name self (segment_of timestamp)
                          metrics deltas.
Proof.
  induction metrics as [|[key values] rest IH]; intros reg.
  - exists []. now split.
  - rewrite collect_keys_cons. cbn [snd].
    destruct (IH (if is_delta_counter key reg
                  then dec_all key values reg else reg))
      as [deltas [Hlen Hlines]].
    exists (is_delta_counter key reg :: deltas). split; [cbn; now rewrite Hlen|].
    cbn [rendered_lines combine flat_map fst snd]. rewrite Hlines.
    f_equal. apply map_ext. intros kv. unfold entry_line.
    apply get_metric_line_stamped.
Qed.

Lemma in_firstn {A : Type} (x : A) (n : nat) (l : list A) :
  In x (firstn n l) -> In x l.
Proof.
  intros H. rewrite <- (firstn_skipn n l). apply in_or_app. now left.
Qed.

Lemma in_skipn {A : Type} (x : A) (n : nat) (l : list A) :
  In x (skipn n l) -> In x l.
Proof.
  intros H. rewrite <- (firstn_skipn n l). apply in_or_app. now right.
Qed.

Lemma chunks_are_made_of_lines (metrics : list string) (chunk_size : Z)
    (chunks : list (list string)) :
  Direct._get_chunks metrics chunk_size = inr chunks ->
  Forall (fun chunk => incl chunk metrics) chunks.
Proof.
  unfold Direct._get_chunks.
  destruct (Direct.range _ _) as [e|starts]; [discriminate|].
  intros H. inversion H. apply Forall_forall. intros chunk Hin.
  apply in_map_iff in Hin. destruct Hin as [i [<- _]].
  intros line Hline. unfold Direct.slice in Hline.
  apply in_firstn in Hline. now apply in_skipn in Hline.
Qed.

(** C9: whatever [timestamp] the direct reporter's [report_now] is
    given, the lines it collects are the lines without timestamp
    segment of the snapshot ([name value source tags], the name being
    the wire name of the entry and the value its snapshot value), and
    these lines, cut into chunks, are what it posts. *)
Theorem C9_direct_lines_have_no_timestamp :
  forall (is_delta_counter : string -> MetricsRegistry -> bool)
         (get_delta_name : string -> string -> string -> string)
         (self : Direct.WavefrontDirectReporter) (reg : MetricsRegistry)
         (timestamp : option Z) (st : Direct.state),
    Direct.report_now is_delta_counter get_delta_name self reg timestamp st
    = Direct.report_now is_delta_counter get_delta_name self reg None st
    /\ exists deltas : list bool,
         List.length deltas = List.length (dump_metrics reg)
         /\ Direct.report_now is_delta_counter get_delta_name self reg
                              timestamp st
            = (fst (_collect_metrics is_delta_counter get_delta_name
                                     (Direct.base self) reg None),
               match rendered_lines get_delta_name (Direct.base self) None
                                    (dump_metrics reg) deltas with
               | [] => inr st
               | _ :: _ =>
                   match Direct._get_chunks
                           (rendered_lines get_delta_name (Direct.base self)
                                           None (dump_metrics reg) deltas)
                           (Direct.batch_size self) with
                   | inl e => inl e
                   | inr chunks => inr (Direct.report_chunks self chunks st)
                   end
               end)
         /\ match Direct._get_chunks
                    (rendered_lines get_delta_name (Direct.base self) None
                                    (dump_metrics reg) deltas)
                    (Direct.batch_size self) with
            | inl _ => True
            | inr chunks =>
                Direct.posted (Direct.report_chunks self chunks st)
                = (Direct.posted st
                     ++ map (Direct.request_for self) chunks)%list
                /\ Forall
                     (fun chunk =>
                        incl chunk
                             (rendered_lines get_delta_name
                                (Direct.base self) None (dump_metrics reg)
                                deltas))
                     chunks
            end.
Proof.
  intros is_delta_counter get_delta_name self reg timestamp st.
  split; [reflexivity|].
  destruct (collect_keys_rendered is_delta_counter get_delta_name
              (Direct.base self) None (dump_metrics reg) reg)
    as [deltas [Hlen Hlines]].
  exists deltas. split; [exact Hlen|].
  change (segment_of None) with (@None Z) in Hlines.
  fold (_collect_metrics is_delta_counter get_delta_name (Direct.base self)
                         reg None) in Hlines.
  split.
  - unfold Direct.report_now.
    destruct (_collect_metrics is_delta_counter get_delta_name
                               (Direct.base self) reg None)
      as [reg1 lines].
    cbn [snd fst] in *. subst lines.
    destruct (rendered_lines _ _ _ _ _) as [|line lines]; [reflexivity|].
    now destruct (Direct._get_chunks _ _).
  - destruct (Direct._get_chunks _ _) as [e|chunks] eqn:Hchunks; [exact I|].
    split; [now rewrite report_chunks_run|].
    now apply (chunks_are_made_of_lines _ _ _ Hchunks).
Qed.

(** *** Chunks *)

Lemma range_from_seq (count start step : nat) :
  Direct.range_from count start step
  = map (fun j => (start + j * step)%nat) (seq 0 count).
Proof.
  revert start. induction count as [|c IH]; intros start.
  - reflexivity.
  - cbn [Direct.range_from seq map]. rewrite IH, <- seq_shift, map_map.
    f_equal; [lia|]. apply map_ext. intros j. lia.
Qed.

Lemma firstn_then_firstn {A : Type} (a b : nat) :
  forall m : list A,
    (firstn a m ++ firstn b (skipn a m))%list = firstn (a + b) m.
Proof.
  induction a as [|a IH]; intros m; [reflexivity|].
  destruct m as [|x m]; cbn; [now rewrite firstn_nil | now rewrite IH].
Qed.

Lemma concat_pieces {A : Type} (k : nat) (m : list A) (count : nat) :
  List.concat (map (fun j => firstn k (skipn (j * k) m)) (seq 0 count))
  = firstn (count * k) m.
Proof.
  induction count as [|c IH]; [reflexivity|].
  rewrite seq_S, map_app, concat_app, IH. cbn [map List.concat plus].
  rewrite app_nil_r, firstn_then_firstn. f_equal. lia.
Qed.

(** The number of chunks covers the list, and no chunk starts beyond
    its end. *)
Lemma chunk_count_bounds (n : nat) (k : Z) :
  0 < k ->
  let count := Z.to_nat ((Z.of_nat n + k - 1) / k) in
  (n <= count * Z.to_nat k)%nat
  /\ (forall j, (j < count)%nat -> (j * Z.to_nat k < n)%nat).
Proof.
  intros Hk count.
  pose proof (Z.div_mod (Z.of_nat n + k - 1) k ltac:(lia)) as Hdiv.
  pose proof (Z.mod_pos_bound (Z.of_nat n + k - 1) k Hk) as Hmod.
  assert (Hq : 0 <= (Z.of_nat n + k - 1) / k)
    by (apply Z.div_pos; lia).
  assert (Hc : Z.of_nat count = (Z.of_nat n + k - 1) / k)
    by (unfold count; lia).
  split.
  - apply Nat2Z.inj_le. rewrite Nat2Z.inj_mul, Hc, Z2Nat.id by lia. nia.
  - intros j Hj. apply Nat2Z.inj_lt. rewrite Nat2Z.inj_mul, Z2Nat.id by lia.
    assert (Z.of_nat j + 1 <= (Z.of_nat n + k - 1) / k) by lia. nia.
Qed.

Lemma get_chunks_eq (metrics : list string) (k : Z) :
  0 < k ->
  Direct._get_chunks metrics k
  = inr (map (fun j => firstn (Z.to_nat k) (skipn (j * Z.to_nat k) metrics))
             (seq 0 (Z.to_nat ((Z.of_nat (List.length metrics) + k - 1)
                               / k)))).
Proof.
  intros Hk. unfold Direct._get_chunks, Direct.range.
  destruct (Z.eqb_spec k 0) as [E|_]; [lia|].
  destruct (Z.ltb_spec k 0) as [E|_]; [lia|].
  rewrite range_from_seq, map_map. f_equal. apply map_ext. intros j.
  unfold Direct.slice. f_equal. lia.
Qed.

Lemma chunk_length (metrics : list string) (k j : nat) :
  List.length (firstn k (skipn (j * k) metrics))
  = Nat.min k (List.length metrics - j * k).
Proof. now rewrite length_firstn, length_skipn. Qed.

(** C3: with a positive batch size the lines are cut into consecutive
    chunks that concatenate back to the lines; every chunk has between 1
    and [batch_size] lines and every chunk but the last has exactly
    [batch_size]; there are [ceil(n / batch_size)] chunks; one POST is
    made per chunk, in order, carrying the chunk joined by newlines;
    [report_now] makes exactly these calls; 25000 lines with batch size
    10000 give chunks of 10000, 10000 and 5000 lines; 10000 is the batch
    size [__init__] sets. *)
Theorem C3_direct_chunking :
  forall (self : Direct.WavefrontDirectReporter) (metrics : list string)
         (st : Direct.state),
    0 < Direct.batch_size self ->
    exists chunks : list (list string),
      Direct._get_chunks metrics (Direct.batch_size self) = inr chunks
      /\ List.concat chunks = metrics
      /\ Forall (fun chunk =>
                   (1 <= List.length chunk
                    <= Z.to_nat (Direct.batch_size self))%nat) chunks
      /\ (forall j, (S j < List.length chunks)%nat ->
                    nth_error (map (@List.length string) chunks) j
                    = Some (Z.to_nat (Direct.batch_size self)))
      /\ Z.of_nat (List.length chunks)
         = (Z.of_nat (List.length metrics) + Direct.batch_size self - 1)
           / Direct.batch_size self
      /\ Direct.posted (Direct.report_chunks self chunks st)
         = (Direct.posted st ++ map (Direct.request_for self) chunks)%list
      /\ (forall is_delta_counter get_delta_name reg timestamp,
             snd (_collect_metrics is_delta_counter get_delta_name
                                   (Direct.base self) reg None) = metrics ->
             snd (Direct.report_now is_delta_counter get_delta_name self
                                    reg timestamp st)
             = inr (Direct.report_chunks self chunks st))
      /\ (Direct.batch_size self = 10000 ->
          List.length metrics = 25000%nat ->
          map (@List.length string) chunks
          = [10000; 10000; 5000]%nat)
      /\ (forall urlparse srv tok src pfx tags reporter,
             Direct.init urlparse srv tok src pfx tags = inr reporter ->
             Direct.batch_size reporter = 10000).
Proof.
  intros self metrics st Hk.
  set (k := Direct.batch_size self) in *.
  pose proof (chunk_count_bounds (List.length metrics) k Hk) as [Hcover Hstart].
  set (count := Z.to_nat ((Z.of_nat (List.length metrics) + k - 1) / k)) in *.
  assert (Hq : 0 <= (Z.of_nat (List.length metrics) + k - 1) / k)
    by (apply Z.div_pos; lia).
  eexists. split; [apply (get_chunks_eq metrics k Hk)|]. fold count.
  assert (Hlen : List.length
                   (map (fun j => firstn (Z.to_nat k)
                                    (skipn (j * Z.to_nat k) metrics))
                        (seq 0 count)) = count)
    by now rewrite length_map, length_seq.
  split; [|split; [|split; [|split; [|split; [|split; [|split]]]]]].
  - rewrite concat_pieces. now apply firstn_all2.
  - apply Forall_forall. intros chunk Hin. apply in_map_iff in Hin.
    destruct Hin as [j [<- Hj]]. apply in_seq in Hj.
    rewrite chunk_length. specialize (Hstart j ltac:(lia)). lia.
  - intros j Hj. rewrite Hlen in Hj.
    rewrite !nth_error_map, nth_error_seq.
    destruct (Nat.ltb_spec j count) as [_|E]; [|lia].
    cbn [option_map plus]. rewrite chunk_length.
    specialize (Hstart (S j) Hj). f_equal. lia.
  - rewrite Hlen. unfold count. lia.
  - now rewrite report_chunks_run.
  - intros is_delta_counter get_delta_name reg timestamp Hlines.
    unfold Direct.report_now.
    destruct (_collect_metrics _ _ _ _ _) as [reg1 lines].
    cbn [snd] in Hlines. subst lines. fold k.
    rewrite (get_chunks_eq metrics k Hk). fold count.
    destruct metrics as [|line rest]; [|reflexivity].
    cbn [snd]. destruct count as [|c]; [reflexivity|].
    specialize (Hstart 0%nat ltac:(lia)). cbn in Hstart. lia.
  - intros Hsize Hn. rewrite map_map.
    rewrite (map_ext _ _ (chunk_length metrics (Z.to_nat k))).
    unfold count. rewrite Hn, Hsize. vm_compute. reflexivity.
  - intros urlparse srv tok src pfx tags reporter Hinit.
    unfold Direct.init in Hinit.
    destruct (Direct._validate_url urlparse srv); [discriminate|].
    now inversion Hinit.
Qed.

Lemma C3_direct_chunking_witness :
  0 < Direct.batch_size
        (Direct.mkDirect (mkReporter "host1" "direct." EmptyString)
           "https://metrics.wavefront.com" "token" 2 [] [])
  /\ exists chunks : list (list string),
       Direct._get_chunks ["a"; "b"; "c"] 2 = inr chunks
       /\ List.concat chunks = ["a"; "b"; "c"].
Proof.
  split; [reflexivity|].
  destruct (C3_direct_chunking
              (Direct.mkDirect (mkReporter "host1" "direct." EmptyString)
                 "https://metrics.wavefront.com" "token" 2 [] [])
              ["a"; "b"; "c"] (Direct.mkState [] [] []) eq_refl)
    as [chunks [Hget [Hcat _]]].
  exists chunks. split; assumption.
Defined.

(** ** Proxy delivery *)

Lemma send_all_succeeds (lines : list string) :
  forall (st : Proxy.state) (sock : nat),
    Proxy.proxy_socket st = Some sock ->
    Forall (fun o => o = Proxy.Succeeds)
           (firstn (List.length lines) (Proxy.network st)) ->
    Proxy.send_all lines st
    = (inr tt,
       Proxy.mkState (Some sock)
         (skipn (List.length lines) (Proxy.network st))
         (Proxy.sockets_made st)
         (Proxy.wire st ++ Proxy.send_as sock lines)%list
         (Proxy.log st)).
Proof.
  induction lines as [|line rest IH]; intros st sock Hsock Hnet.
  - destruct st as [s net made wire log]. cbn in *. subst s.
    now rewrite app_nil_r.
  - cbn [Proxy.send_all]. unfold Proxy.bind, Proxy.send, Proxy.attempt.
    destruct st as [s net made wire log]. cbn in Hsock. subst s.
    destruct net as [|o net]; cbn.
    + rewrite (IH _ sock) by (cbn; rewrite ?firstn_nil; auto).
      cbn. rewrite skipn_nil, <- app_assoc. reflexivity.
    + cbn in Hnet. inversion Hnet as [|? ? Ho Hrest]; subst. cbn.
      rewrite (IH _ sock) by (cbn; auto).
      cbn. rewrite <- app_assoc. reflexivity.
Qed.

Lemma send_all_fails (lines : list string) :
  forall (st : Proxy.state) (sock i : nat) (o : Proxy.outcome)
         (e : Proxy.failure) (rest : list Proxy.outcome),
    Proxy.proxy_socket st = Some sock ->
    Proxy.network st = (repeat Proxy.Succeeds i ++ o :: rest)%list ->
    Proxy.raised o = Some e ->
    (i < List.length lines)%nat ->
    Proxy.send_all lines st
    = (inl e,
       Proxy.mkState (Some sock) rest (Proxy.sockets_made st)
         (Proxy.wire st ++ Proxy.send_as sock (firstn i lines))%list
         (Proxy.log st)).
Proof.
  induction lines as [|line more IH];
    intros st sock i o e rest Hsock Hnet Ho Hi; [cbn in Hi; lia|].
  cbn [Proxy.send_all]. unfold Proxy.bind, Proxy.send, Proxy.attempt.
  destruct st as [s net made wire log]. cbn in Hsock, Hnet. subst s net.
  destruct i as [|i]; cbn.
  - rewrite Ho. now rewrite app_nil_r.
  - rewrite (IH _ sock i o e rest) by (cbn in *; auto; lia).
    cbn. rewrite <- app_assoc. reflexivity.
Qed.

Lemma try_body_fails (lines : list string) (st : Proxy.state) (i : nat)
    (o : Proxy.outcome) (e : Proxy.failure) (rest : list Proxy.outcome) :
  Proxy.network st = (repeat Proxy.Succeeds i ++ o :: rest)%list ->
  Proxy.raised o = Some e ->
  (i < Proxy.attempt_size st lines)%nat ->
  Proxy.try_body lines st
  = (inl e,
     Proxy.mkState (Some (Proxy.socket_in_use st)) rest (Proxy.made_after st)
       (Proxy.wire st
          ++ Proxy.send_as (Proxy.socket_in_use st)
               (firstn (Proxy.sends_before st i) lines))%list
       (Proxy.log st)).
Proof.
  intros Hnet Ho Hi. unfold Proxy.try_body, Proxy.bind.
  unfold Proxy.attempt_size, Proxy.socket_in_use, Proxy.made_after,
    Proxy.sends_before in *.
  destruct st as [[sock|] net made wire log]; cbn in *; subst net.
  - now rewrite (send_all_fails lines _ sock i o e rest) by (cbn; auto).
  - unfold Proxy._connect, Proxy.attempt. destruct i as [|i]; cbn.
    + rewrite Ho. now rewrite app_nil_r.
    + now rewrite (send_all_fails lines _ made i o e rest)
        by (cbn; auto; lia).
Qed.

Lemma try_body_succeeds (lines : list string) (st : Proxy.state) :
  Forall (fun o => o = Proxy.Succeeds)
         (firstn (Proxy.attempt_size st lines) (Proxy.network st)) ->
  Proxy.try_body lines st
  = (inr tt,
     Proxy.mkState (Some (Proxy.socket_in_use st))
       (skipn (Proxy.attempt_size st lines) (Proxy.network st))
       (Proxy.made_after st)
       (Proxy.wire st ++ Proxy.send_as (Proxy.socket_in_use st) lines)%list
       (Proxy.log st)).
Proof.
  intros Hnet. unfold Proxy.try_body, Proxy.bind.
  unfold Proxy.attempt_size, Proxy.socket_in_use, Proxy.made_after in *.
  destruct st as [[sock|] net made wire log]; cbn in *.
  - now rewrite (send_all_succeeds lines _ sock) by (cbn; auto).
  - unfold Proxy._connect, Proxy.attempt. destruct net as [|o net]; cbn.
    + rewrite (send_all_succeeds lines _ made)
        by (cbn; rewrite ?firstn_nil; auto).
      cbn. now rewrite skipn_nil.
    + inversion Hnet as [|? ? Ho Hrest]; subst. cbn.
      now rewrite (send_all_succeeds lines _ made) by (cbn; auto).
Qed.

(** What an attempt leaves alone, however it ends. *)
Lemma send_all_frame (lines : list string) :
  forall st,
    Proxy.log (snd (Proxy.send_all lines st)) = Proxy.log st
    /\ Proxy.sockets_made (snd (Proxy.send_all lines st))
       = Proxy.sockets_made st.
Proof.
  induction lines as [|line rest IH]; intros st; [now split|].
  cbn [Proxy.send_all]. unfold Proxy.bind, Proxy.send, Proxy.attempt.
  destruct st as [[sock|] [|o net] made wire log]; cbn;
    try (now split).
  - apply IH.
  - destruct (Proxy.raised o); cbn; [now split | apply IH].
Qed.

Lemma try_body_frame (lines : list string) (st : Proxy.state) :
  Proxy.log (snd (Proxy.try_body lines st)) = Proxy.log st
  /\ (Proxy.sockets_made (snd (Proxy.try_body lines st))
      <= S (Proxy.sockets_made st))%nat.
Proof.
  unfold Proxy.try_body, Proxy.bind.
  destruct st as [[sock|] net made wire log]; cbn.
  - destruct (send_all_frame lines
                (Proxy.mkState (Some sock) net made wire log)) as [Hl Hm].
    cbn in *. rewrite Hl, Hm. split; [reflexivity | lia].
  - unfold Proxy._connect, Proxy.attempt.
    destruct net as [|o net]; cbn.
    + destruct (send_all_frame lines
                  (Proxy.mkState (Some made) [] (S made) wire log))
        as [Hl Hm].
      cbn in *. rewrite Hl, Hm. split; [reflexivity | lia].
    + destruct (Proxy.raised o); cbn; [split; [reflexivity | lia]|].
      destruct (send_all_frame lines
                  (Proxy.mkState (Some made) net (S made) wire log))
        as [Hl Hm].
      cbn in *. rewrite Hl, Hm. split; [reflexivity | lia].
Qed.

(** C2: a batch sent over a connection whose operations succeed except
    for one [socket.error] is delivered whole on a second socket, made by
    the one reconnect, and nothing is logged; when the retry fails as
    well, one record is logged, only a proper part of the batch has been
    written to either socket, no further socket is made and no further
    operation is attempted; whatever the network does, a call makes at
    most two sockets and logs at most one record. *)
Theorem C2_proxy_retry_once :
  (forall (lines : list string) (st : Proxy.state) (i : nat)
          (rest : list Proxy.outcome),
      Proxy.network st
      = (repeat Proxy.Succeeds i ++ Proxy.SocketError :: rest)%list ->
      (i < Proxy.attempt_size st lines)%nat ->
      Forall (fun o => o = Proxy.Succeeds)
             (firstn (S (List.length lines)) rest) ->
      Proxy._report_points lines true st
      = Proxy.mkState (Some (Proxy.made_after st))
          (skipn (S (List.length lines)) rest)
          (S (Proxy.made_after st))
          ((Proxy.wire st
              ++ Proxy.send_as (Proxy.socket_in_use st)
                   (firstn (Proxy.sends_before st i) lines))
             ++ Proxy.send_as (Proxy.made_after st) lines)%list
          (Proxy.log st))
  /\ (forall (lines : list string) (st : Proxy.state) (i j : nat)
             (o : Proxy.outcome) (e : Proxy.failure)
             (rest : list Proxy.outcome),
         Proxy.network st
         = (repeat Proxy.Succeeds i
              ++ Proxy.SocketError
              :: repeat Proxy.Succeeds j ++ o :: rest)%list ->
         Proxy.raised o = Some e ->
         (i < Proxy.attempt_size st lines)%nat ->
         (j < S (List.length lines))%nat ->
         Proxy._report_points lines true st
         = Proxy.mkState (Some (Proxy.made_after st)) rest
             (S (Proxy.made_after st))
             ((Proxy.wire st
                 ++ Proxy.send_as (Proxy.socket_in_use st)
                      (firstn (Proxy.sends_before st i) lines))
                ++ Proxy.send_as (Proxy.made_after st)
                     (firstn (pred j) lines))%list
             (Proxy.log st ++ [e])%list
         /\ (Proxy.sends_before st i < List.length lines
             \/ lines = [])%nat
         /\ (pred j < List.length lines \/ lines = [])%nat)
  /\ (forall (lines : list string) (reconnect : bool) (st : Proxy.state),
         (Proxy.sockets_made (Proxy._report_points lines reconnect st)
          <= 2 + Proxy.sockets_made st)%nat
         /\ (List.length
               (Proxy.log (Proxy._report_points lines reconnect st))
             <= 1 + List.length (Proxy.log st))%nat).
Proof.
  split; [|split].
  - intros lines st i rest Hnet Hi Hrest.
    unfold Proxy._report_points.
    rewrite (try_body_fails lines st i Proxy.SocketError
               Proxy.socket_error rest Hnet eq_refl Hi).
    unfold Proxy._report_points_last, Proxy.forget_socket.
    cbn [Proxy.network Proxy.sockets_made Proxy.wire Proxy.log].
    rewrite try_body_succeeds by exact Hrest.
    reflexivity.
  - intros lines st i j o e rest Hnet Ho Hi Hj. split.
    + unfold Proxy._report_points.
      rewrite (try_body_fails lines st i Proxy.SocketError
                 Proxy.socket_error _ Hnet eq_refl Hi).
      unfold Proxy._report_points_last, Proxy.forget_socket.
      cbn [Proxy.network Proxy.sockets_made Proxy.wire Proxy.log].
      erewrite (try_body_fails lines _ j o e rest);
        [reflexivity | reflexivity | exact Ho | cbn; lia].
    + unfold Proxy.attempt_size, Proxy.sends_before in *.
      destruct lines as [|line more]; [split; now right|].
      split; left; destruct (Proxy.proxy_socket st); cbn in *; lia.
  - intros lines reconnect st.
    pose proof (try_body_frame lines st) as [Hl1 Hm1].
    unfold Proxy._report_points.
    destruct (Proxy.try_body lines st) as [[e|u] st1]; cbn [snd] in *.
    + assert (Hfinal :
                (Proxy.sockets_made
                   (Proxy._report_points_last lines
                      (Proxy.forget_socket st1))
                 <= 2 + Proxy.sockets_made st)%nat
                /\ (List.length
                      (Proxy.log
                         (Proxy._report_points_last lines
                            (Proxy.forget_socket st1)))
                    <= 1 + List.length (Proxy.log st))%nat).
      { pose proof (try_body_frame lines (Proxy.forget_socket st1))
          as [Hl2 Hm2].
        unfold Proxy._report_points_last.
        destruct (Proxy.try_body lines (Proxy.forget_socket st1))
          as [[e2|u2] st2]; cbn [snd] in *;
          cbn [Proxy.logging_error Proxy.sockets_made Proxy.log
                 Proxy.forget_socket] in *;
          rewrite ?length_app, ?Hl2, ?Hl1; cbn; lia. }
      destruct e; [destruct reconnect|];
        cbn [Proxy.logging_error Proxy.sockets_made Proxy.log];
        rewrite ?length_app, ?Hl1; cbn; try lia; exact Hfinal.
    + rewrite Hl1. lia.
Qed.

Lemma C2_proxy_retry_once_witness :
  Proxy._report_points ["a"; "b"; "c"] true
    (Proxy.mkState None
       [Proxy.Succeeds; Proxy.Succeeds; Proxy.SocketError] 0 [] [])
  = Proxy.mkState (Some 1%nat) [] 2
      (Proxy.send_as 0 ["a"] ++ Proxy.send_as 1 ["a"; "b"; "c"])%list []
  /\ Proxy._report_points ["a"; "b"; "c"] true
       (Proxy.mkState None
          [Proxy.Succeeds; Proxy.Succeeds; Proxy.SocketError;
           Proxy.Succeeds; Proxy.SocketError; Proxy.OtherError] 0 [] [])
     = Proxy.mkState (Some 1%nat) [Proxy.OtherError] 2
         (Proxy.send_as 0 ["a"]) [Proxy.socket_error].
Proof.
  destruct C2_proxy_retry_once as [Honce [Htwice _]].
  split.
  - apply (Honce ["a"; "b"; "c"]
             (Proxy.mkState None
                [Proxy.Succeeds; Proxy.Succeeds; Proxy.SocketError]
                0 [] [])
             2%nat []);
      [reflexivity | cbn; lia | repeat constructor].
  - apply (Htwice ["a"; "b"; "c"]
             (Proxy.mkState None
                [Proxy.Succeeds; Proxy.Succeeds; Proxy.SocketError;
                 Proxy.Succeeds; Proxy.SocketError; Proxy.OtherError]
                0 [] [])
             2%nat 1%nat Proxy.SocketError Proxy.socket_error
             [Proxy.OtherError]);
      [reflexivity | reflexivity | cbn; lia | cbn; lia].
Defined.

(** ** Delta counters *)

Lemma dec_in_nth_other (k key : string) (v c : Z) :
  k <> key ->
  forall (cs : list (string * Z)) (i : nat),
    nth_error cs i = Some (key, c) ->
    nth_error (dec_in k v cs) i = Some (key, c).
Proof.
  intros Hne. induction cs as [|[k0 n0] cs IH]; intros i Hi.
  - now destruct i.
  - cbn [dec_in]. destruct (String.eqb_spec k0 k) as [->|Hk].
    + destruct i as [|i]; cbn in *; [congruence | assumption].
    + destruct i as [|i]; cbn in *; [assumption | now apply IH].
Qed.

Lemma dec_in_nth_same (key : string) (v c : Z) :
  forall (cs : list (string * Z)) (i : nat),
    NoDup (map fst cs) ->
    nth_error cs i = Some (key, c) ->
    nth_error (dec_in key v cs) i = Some (key, c - v).
Proof.
  induction cs as [|[k0 n0] cs IH]; intros i Hnd Hi.
  - now destruct i.
  - cbn [dec_in]. cbn in Hnd. inversion Hnd as [|? ? Hnotin Hnd']; subst.
    destruct (String.eqb_spec k0 key) as [->|Hk].
    + destruct i as [|i]; cbn in *; [congruence|].
      exfalso. apply Hnotin. apply nth_error_In in Hi.
      now apply (in_map fst) in Hi.
    + destruct i as [|i]; cbn in *; [congruence | now apply IH].
Qed.

Lemma dec_in_keys (k : string) (v : Z) (cs : list (string * Z)) :
  map fst (dec_in k v cs)
  = if in_dec string_dec k (map fst cs) then map fst cs
    else (map fst cs ++ [k])%list.
Proof.
  induction cs as [|[k0 n0] cs IH]; [reflexivity|].
  cbn [dec_in map fst]. destruct (String.eqb_spec k0 k) as [->|Hk].
  - cbn [map fst].
    destruct (in_dec string_dec k (k :: map fst cs)) as [_|Hn];
      [reflexivity|].
    exfalso. apply Hn. now left.
  - cbn [map fst]. rewrite IH.
    destruct (in_dec string_dec k (map fst cs)) as [Hin|Hn];
      destruct (in_dec string_dec k (k0 :: map fst cs)) as [Hin'|Hn'];
      try reflexivity.
    + exfalso. apply Hn'. now right.
    + destruct Hin' as [E|Hin']; [congruence | contradiction].
Qed.

Lemma dec_in_NoDup (k : string) (v : Z) (cs : list (string * Z)) :
  NoDup (map fst cs) -> NoDup (map fst (dec_in k v cs)).
Proof.
  intros Hnd. rewrite dec_in_keys.
  destruct (in_dec string_dec k (map fst cs)) as [_|Hn]; [assumption|].
  apply NoDup_app; [assumption | repeat constructor; intros [] |].
  intros x Hx [<-|[]]. contradiction.
Qed.

Section Preservation.

Variable is_delta_counter : string -> MetricsRegistry -> bool.
Variable get_delta_name : string -> string -> string -> string.
Variable P : MetricsRegistry -> Prop.

Lemma dec_all_preserves (key : string) (values : list (string * Z)) :
  (forall v r, P r -> P (counter_dec key v r)) ->
  forall reg, P reg -> P (dec_all key values reg).
Proof.
  intros Hstep. unfold dec_all.
  induction values as [|kv rest IH]; intros reg Hreg; [assumption|].
  cbn [fold_left]. apply IH. now apply Hstep.
Qed.

(** A property that survives the decrement of every key of the
    snapshot survives the collection. *)
Lemma collect_keys_preserves (self : WavefrontReporter)
    (timestamp : option Z) (metrics : snapshot) :
  (forall k v r, In k (map fst metrics) -> P r -> P (counter_dec k v r)) ->
  forall reg,
    P reg ->
    P (fst (collect_keys is_delta_counter get_delta_name self timestamp
                         metrics reg)).
Proof.
  induction metrics as [|[key values] rest IH]; intros Hstep reg Hreg.
  - assumption.
  - rewrite collect_keys_cons. cbn [fst]. apply IH.
    + intros k v r Hin. apply Hstep. now right.
    + destruct (is_delta_counter key reg); [|assumption].
      apply dec_all_preserves; [|assumption].
      intros v r. apply Hstep. now left.
Qed.

End Preservation.

Section DeltaCycle.

Variable is_delta_counter : string -> MetricsRegistry -> bool.
Variable get_delta_name : string -> string -> string -> string.

Let collect := collect_keys is_delta_counter get_delta_name.

Lemma collect_keys_app (self : WavefrontReporter) (timestamp : option Z)
    (before after : snapshot) :
  forall reg,
    collect self timestamp (before ++ after)%list reg
    = (fst (collect self timestamp after
                    (fst (collect self timestamp before reg))),
       (snd (collect self timestamp before reg)
          ++ snd (collect self timestamp after
                          (fst (collect self timestamp before reg))))%list).
Proof.
  unfold collect.
  induction before as [|[key values] rest IH]; intros reg.
  - cbn. now destruct (collect_keys _ _ _ _ after reg).
  - cbn [app]. rewrite !collect_keys_cons. cbn [fst snd].
    rewrite IH. cbn [fst snd]. now rewrite app_assoc.
Qed.

Lemma counter_lines_length (self : WavefrontReporter)
    (timestamp : option Z) (cs : list (string * Z)) :
  forall reg,
    List.length (snd (collect self timestamp (map counter_entry cs) reg))
    = List.length cs.
Proof.
  unfold collect. induction cs as [|[k n] cs IH]; intros reg.
  - reflexivity.
  - change (map counter_entry ((k, n) :: cs))
      with ((k, [("count", n)]) :: map counter_entry cs).
    rewrite collect_keys_cons.
    cbn [snd map app List.length]. now rewrite IH.
Qed.

(** One collection, seen from a delta counter at position [i]. *)
Lemma delta_cycle (self : WavefrontReporter) (reg : MetricsRegistry)
    (timestamp : option Z) (key : string) (c : Z) (i : nat) :
  NoDup (map fst (counters reg)) ->
  ~ In key (map fst (readings reg)) ->
  nth_error (counters reg) i = Some (key, c) ->
  (forall r, is_delta_counter key r = true) ->
  let result :=
    _collect_metrics is_delta_counter get_delta_name self reg timestamp in
  nth_error (snd result) i
  = Some (_get_metric_line self
            (get_delta_name (prefix self) key "count") c timestamp)
  /\ nth_error (counters (fst result)) i = Some (key, c - c)
  /\ NoDup (map fst (counters (fst result)))
  /\ readings (fst result) = readings reg.
Proof.
  intros Hnd Hfresh Hnth Hdelta result.
  assert (Hkeep_nd :
            NoDup (map fst (counters (fst result)))
            /\ readings (fst result) = readings reg).
  { unfold result, _collect_metrics. apply (collect_keys_preserves is_delta_counter get_delta_name
             (fun r => NoDup (map fst (counters r))
                       /\ readings r = readings reg)).
    - intros k v r _ [Hr1 Hr2]. split; [|assumption].
      now apply dec_in_NoDup.
    - now split. }
  destruct Hkeep_nd as [Hnd' Hread]. refine (conj _ (conj _ (conj Hnd' Hread))).
  all: destruct (nth_error_split _ _ Hnth) as [cs1 [cs2 [Hcs Hlen]]].
  all: assert (Hnot1 : ~ In key (map fst cs1))
    by (rewrite Hcs, map_app in Hnd; cbn in Hnd;
        apply NoDup_remove_2 in Hnd; intros Hin; apply Hnd;
        apply in_or_app; now left).
  all: assert (Hnot2 : ~ In key (map fst cs2))
    by (rewrite Hcs, map_app in Hnd; cbn in Hnd;
        apply NoDup_remove_2 in Hnd; intros Hin; apply Hnd;
        apply in_or_app; now right).
  all: subst result; unfold _collect_metrics, dump_metrics.
  all: rewrite Hcs, map_app; cbn [map]; rewrite <- app_assoc;
    cbn [app]; fold collect; rewrite collect_keys_app; unfold collect.
  all: change (counter_entry (key, c)) with (key, [("count", c)]).
  all: rewrite collect_keys_cons; cbn [fst snd].
  all: rewrite Hdelta.
  - rewrite nth_error_app2
      by (fold collect; rewrite counter_lines_length; lia).
    fold collect. rewrite counter_lines_length, Hlen, Nat.sub_diag.
    reflexivity.
  - set (ra := fst (collect_keys is_delta_counter get_delta_name self
                      timestamp (map counter_entry cs1) reg)).
    assert (Hra : nth_error (counters ra) i = Some (key, c)
                  /\ NoDup (map fst (counters ra))).
    { apply (collect_keys_preserves is_delta_counter get_delta_name
               (fun r => nth_error (counters r) i = Some (key, c)
                         /\ NoDup (map fst (counters r)))).
      - intros k v r Hin [Hr1 Hr2]. split; [|now apply dec_in_NoDup].
        apply dec_in_nth_other; [|assumption].
        intros ->. apply Hnot1. rewrite map_map in Hin. exact Hin.
      - split; assumption. }
    destruct Hra as [Hra1 Hra2].
    apply (collect_keys_preserves is_delta_counter get_delta_name
             (fun r => nth_error (counters r) i = Some (key, c - c))).
    + intros k v r Hin Hr. apply dec_in_nth_other; [|assumption].
      intros ->. rewrite map_app, map_map in Hin.
      apply in_app_or in Hin. destruct Hin as [Hin|Hin];
        [apply Hnot2; exact Hin | contradiction].
    + cbn. now apply dec_in_nth_same.
Qed.

End DeltaCycle.

(** C1: for a delta key the inner loop subtracts from the counter, entry
    by entry, the very snapshot value it renders; for a delta counter
    holding [n], one collection reports [n] and leaves the counter at
    [n - n], and a second collection right after it reports 0 and leaves
    the counter at 0. *)
Theorem C1_delta_counter_reset_on_read :
  forall (is_delta_counter : string -> MetricsRegistry -> bool)
         (get_delta_name : string -> string -> string -> string)
         (self : WavefrontReporter) (reg : MetricsRegistry)
         (timestamp1 timestamp2 : option Z) (key : string) (n : Z)
         (i : nat),
    NoDup (map fst (counters reg)) ->
    ~ In key (map fst (readings reg)) ->
    nth_error (counters reg) i = Some (key, n) ->
    (forall r, is_delta_counter key r = true) ->
    let first :=
      _collect_metrics is_delta_counter get_delta_name self reg timestamp1 in
    let second :=
      _collect_metrics is_delta_counter get_delta_name self (fst first)
                       timestamp2 in
    (forall values r,
        collect_values get_delta_name self key true timestamp1 values r
        = (fold_left (fun r' kv => counter_dec key (snd kv) r') values r,
           map (fun kv =>
                  _get_metric_line self
                    (get_delta_name (prefix self) key (fst kv)) (snd kv)
                    timestamp1)
               values))
    /\ nth_error (snd first) i
       = Some (_get_metric_line self
                 (get_delta_name (prefix self) key "count") n timestamp1)
    /\ nth_error (counters (fst first)) i = Some (key, n - n)
    /\ nth_error (snd second) i
       = Some (_get_metric_line self
                 (get_delta_name (prefix self) key "count") 0 timestamp2)
    /\ nth_error (counters (fst second)) i = Some (key, 0).
Proof.
  intros is_delta_counter get_delta_name self reg timestamp1 timestamp2
         key n i Hnd Hfresh Hnth Hdelta first second.
  destruct (delta_cycle is_delta_counter get_delta_name self reg timestamp1
              key n i Hnd Hfresh Hnth Hdelta)
    as [Hline1 [Hcount1 [Hnd1 Hread1]]].
  fold first in Hline1, Hcount1, Hnd1, Hread1.
  rewrite Z.sub_diag in Hcount1.
  assert (Hfresh1 : ~ In key (map fst (readings (fst first))))
    by now rewrite Hread1.
  destruct (delta_cycle is_delta_counter get_delta_name self (fst first)
              timestamp2 key 0 i Hnd1 Hfresh1 Hcount1 Hdelta)
    as [Hline2 [Hcount2 _]].
  fold second in Hline2, Hcount2.
  split; [|split; [|split; [|split]]].
  - intros values r. now rewrite collect_values_eq.
  - exact Hline1.
  - now rewrite Z.sub_diag.
  - exact Hline2.
  - exact Hcount2.
Qed.

Lemma C1_delta_counter_reset_on_read_witness :
  nth_error
    (snd (_collect_metrics
            (fun k _ => String.eqb k "errors")
            (fun p k v => "delta." ++ p ++ k ++ "." ++ v)
            (WavefrontReporter_init "host1" "proxy." None)
            (mkRegistry [("requests", 42); ("errors", 7)]
                        [("latency", [("avg", 3); ("max", 9)])])
            (Some 100))) 1
  = Some (_get_metric_line (WavefrontReporter_init "host1" "proxy." None)
            "delta.proxy.errors.count" 7 (Some 100))
  /\ nth_error
       (snd (_collect_metrics
               (fun k _ => String.eqb k "errors")
               (fun p k v => "delta." ++ p ++ k ++ "." ++ v)
               (WavefrontReporter_init "host1" "proxy." None)
               (fst (_collect_metrics
                       (fun k _ => String.eqb k "errors")
                       (fun p k v => "delta." ++ p ++ k ++ "." ++ v)
                       (WavefrontReporter_init "host1" "proxy." None)
                       (mkRegistry [("requests", 42); ("errors", 7)]
                                   [("latency", [("avg", 3); ("max", 9)])])
                       (Some 100)))
               (Some 110))) 1
     = Some (_get_metric_line (WavefrontReporter_init "host1" "proxy." None)
               "delta.proxy.errors.count" 0 (Some 110)).
Proof.
  assert (Hnd : NoDup (map fst [("requests", 42); ("errors", 7)])).
  { cbn. constructor; [intros [H|[]]; discriminate H|].
    constructor; [intros []|constructor]. }
  assert (Hfresh :
            ~ In "errors" (map fst [("latency", [("avg", 3); ("max", 9)])]))
    by (cbn; intros [H|[]]; discriminate H).
  destruct (C1_delta_counter_reset_on_read
              (fun k _ => String.eqb k "errors")
              (fun p k v => "delta." ++ p ++ k ++ "." ++ v)
              (WavefrontReporter_init "host1" "proxy." None)
              (mkRegistry [("requests", 42); ("errors", 7)]
                          [("latency", [("avg", 3); ("max", 9)])])
              (Some 100) (Some 110) "errors" 7 1%nat Hnd Hfresh eq_refl
              (fun _ => eq_refl))
    as [_ [H1 [_ [H3 _]]]].
  split; assumption.
Defined.

(** * Further properties of the collector *)

Section CollectorShape.

Variable is_delta_counter : string -> MetricsRegistry -> bool.
Variable get_delta_name : string -> string -> string -> string.

(** What holds of every line an entry can render holds of every
    collected line. *)
Lemma collect_keys_lines (self : WavefrontReporter) (timestamp : option Z)
    (Q : string -> Prop) :
  (forall key d kv,
      Q (entry_line get_delta_name self key d timestamp kv)) ->
  forall metrics reg,
    Forall Q (snd (collect_keys is_delta_counter get_delta_name self
                                timestamp metrics reg)).
Proof.
  intros HQ. induction metrics as [|[key values] rest IH]; intros reg.
  - constructor.
  - rewrite collect_keys_cons. cbn [snd].
    apply Forall_app. split; [|apply IH].
    apply Forall_forall. intros line Hin.
    apply in_map_iff in Hin. destruct Hin as [kv [<- _]]. apply HQ.
Qed.

Lemma collect_keys_length (self : WavefrontReporter)
    (timestamp : option Z) (metrics : snapshot) :
  forall reg,
    List.length (snd (collect_keys is_delta_counter get_delta_name self
                                   timestamp metrics reg))
    = List.length (flat_map snd metrics).
Proof.
  induction metrics as [|[key values] rest IH]; intros reg.
  - reflexivity.
  - rewrite collect_keys_cons. cbn [snd flat_map].
    now rewrite !length_app, length_map, IH.
Qed.

(** The collector renders one line per counter and one line per value
    of every other metric, neither more nor less, whatever the
    classifier answers and whatever the timestamp. *)
Theorem collect_one_line_per_value :
  forall (self : WavefrontReporter) (reg : MetricsRegistry)
         (timestamp : option Z),
    List.length (snd (_collect_metrics is_delta_counter get_delta_name
                                       self reg timestamp))
    = (List.length (counters reg)
       + List.length (flat_map snd (readings reg)))%nat.
Proof.
  intros self reg timestamp. unfold _collect_metrics, dump_metrics.
  rewrite collect_keys_length, flat_map_app, length_app. f_equal.
  induction (counters reg) as [|c cs IH]; [reflexivity|].
  cbn. now rewrite IH.
Qed.

(** Every collected line ends with the source and the tag string that
    [__init__] rendered, verbatim. *)
Theorem collect_lines_end_with_source_and_tags :
  forall (self : WavefrontReporter) (reg : MetricsRegistry)
         (timestamp : option Z),
    Forall (fun line =>
              exists front,
                line = front ++ " source=" ++ dquote ++ source self
                             ++ dquote ++ " " ++ tagStr self)
           (snd (_collect_metrics is_delta_counter get_delta_name self reg
                                  timestamp)).
Proof.
  intros self reg timestamp. apply collect_keys_lines.
  intros key d kv. unfold entry_line.
  destruct (truthy_int timestamp) eqn:Ht.
  - destruct timestamp as [t|]; [|discriminate Ht].
    rewrite line_truthy
      by (intros ->; discriminate Ht).
    unfold line_with_timestamp, line_tail.
    eexists. rewrite <- !append_assoc. reflexivity.
  - rewrite line_falsy by assumption.
    unfold line_without_timestamp, line_tail. eexists. reflexivity.
Qed.

(** The collector leaves the readings alone and neither removes nor
    reorders a counter: the counter keys it found are still there, in the
    same order, before any key it registered. *)
Theorem collect_keeps_registry_shape :
  forall (self : WavefrontReporter) (reg : MetricsRegistry)
         (timestamp : option Z),
    readings (fst (_collect_metrics is_delta_counter get_delta_name self
                                    reg timestamp))
    = readings reg
    /\ exists added,
         map fst (counters (fst (_collect_metrics is_delta_counter
                                   get_delta_name self reg timestamp)))
         = (map fst (counters reg) ++ added)%list.
Proof.
  intros self reg timestamp. unfold _collect_metrics.
  apply (collect_keys_preserves is_delta_counter get_delta_name
           (fun r => readings r = readings reg
                     /\ exists added,
                          map fst (counters r)
                          = (map fst (counters reg) ++ added)%list)).
  - intros k v r _ [Hread [added Hkeys]]. split; [assumption|].
    cbn [counter_dec counters]. rewrite dec_in_keys.
    destruct (in_dec string_dec k (map fst (counters r))) as [_|_].
    + now exists added.
    + exists (added ++ [k])%list. now rewrite Hkeys, app_assoc.
  - split; [reflexivity|]. exists []. now rewrite app_nil_r.
Qed.

(** When the classifier answers no for every key of the snapshot, the
    collector returns the registry as it found it. *)
Theorem collect_without_delta_keeps_registry :
  forall (self : WavefrontReporter) (reg : MetricsRegistry)
         (timestamp : option Z),
    (forall key, In key (map fst (dump_metrics reg)) ->
                 is_delta_counter key reg = false) ->
    fst (_collect_metrics is_delta_counter get_delta_name self reg
                          timestamp) = reg.
Proof.
  intros self reg timestamp. unfold _collect_metrics.
  induction (dump_metrics reg) as [|[key values] rest IH]; intros Hno.
  - reflexivity.
  - rewrite collect_keys_cons. cbn [fst].
    rewrite (Hno key) by now left.
    apply IH. intros k Hin. apply Hno. now right.
Qed.

End CollectorShape.

Lemma collect_without_delta_keeps_registry_witness :
  (forall key,
      In key (map fst (dump_metrics
                         (mkRegistry [("requests", 42)]
                                     [("latency", [("avg", 3)])]))) ->
      (fun k (_ : MetricsRegistry) => String.eqb k "errors") key
        (mkRegistry [("requests", 42)] [("latency", [("avg", 3)])])
      = false)
  /\ fst (_collect_metrics (fun k _ => String.eqb k "errors")
                           (fun p k v => p ++ k ++ v)
                           (mkReporter "host1" "proxy." EmptyString)
                           (mkRegistry [("requests", 42)]
                                       [("latency", [("avg", 3)])])
                           (Some 5))
     = mkRegistry [("requests", 42)] [("latency", [("avg", 3)])].
Proof.
  assert (H : forall key,
             In key (map fst (dump_metrics
                                (mkRegistry [("requests", 42)]
                                            [("latency", [("avg", 3)])]))) ->
             (fun k (_ : MetricsRegistry) => String.eqb k "errors") key
               (mkRegistry [("requests", 42)] [("latency", [("avg", 3)])])
             = false)
    by (intros key [<-|[<-|[]]]; reflexivity).
  split; [exact H|].
  exact (collect_without_delta_keeps_registry
           (fun k _ => String.eqb k "errors") (fun p k v => p ++ k ++ v)
           (mkReporter "host1" "proxy." EmptyString)
           (mkRegistry [("requests", 42)] [("latency", [("avg", 3)])])
           (Some 5) H).
Defined.

Section NonDelta.

Variable is_delta_counter : string -> MetricsRegistry -> bool.
Variable get_delta_name : string -> string -> string -> string.
Variable P : MetricsRegistry -> Prop.

(** As [collect_keys_preserves], knowing that a decremented key was
    classified as delta. *)
Lemma collect_keys_preserves_delta (self : WavefrontReporter)
    (timestamp : option Z) (metrics : snapshot) :
  (forall k v r r0,
      In k (map fst metrics) -> is_delta_counter k r0 = true ->
      P r -> P (counter_dec k v r)) ->
  forall reg,
    P reg ->
    P (fst (collect_keys is_delta_counter get_delta_name self timestamp
                         metrics reg)).
Proof.
  induction metrics as [|[key values] rest IH]; intros Hstep reg Hreg.
  - assumption.
  - rewrite collect_keys_cons. cbn [fst]. apply IH.
    + intros k v r r0 Hin. apply Hstep. now right.
    + destruct (is_delta_counter key reg) eqn:Hd; [|assumption].
      apply dec_all_preserves; [|assumption].
      intros v r. apply (Hstep key v r reg); [now left | assumption].
Qed.

End NonDelta.

(** A counter the classifier never takes for a delta counter keeps its
    count through a collection, whatever else is decremented. *)
Theorem collect_keeps_plain_counters :
  forall (is_delta_counter : string -> MetricsRegistry -> bool)
         (get_delta_name : string -> string -> string -> string)
         (self : WavefrontReporter) (reg : MetricsRegistry)
         (timestamp : option Z) (key : string) (c : Z) (i : nat),
    nth_error (counters reg) i = Some (key, c) ->
    (forall r, is_delta_counter key r = false) ->
    nth_error (counters (fst (_collect_metrics is_delta_counter
                                get_delta_name self reg timestamp))) i
    = Some (key, c).
Proof.
  intros is_delta_counter get_delta_name self reg timestamp key c i
         Hnth Hplain.
  unfold _collect_metrics.
  apply (collect_keys_preserves_delta is_delta_counter get_delta_name
           (fun r => nth_error (counters r) i = Some (key, c)));
    [|assumption].
  intros k v r r0 _ Hd Hr. apply dec_in_nth_other; [|assumption].
  intros ->. rewrite Hplain in Hd. discriminate Hd.
Qed.

Lemma collect_keeps_plain_counters_witness :
  nth_error [("requests", 42); ("errors", 7)] 0 = Some ("requests", 42)
  /\ nth_error
       (counters
          (fst (_collect_metrics (fun k _ => String.eqb k "errors")
                  (fun p k v => p ++ k ++ v)
                  (mkReporter "host1" "proxy." EmptyString)
                  (mkRegistry [("requests", 42); ("errors", 7)] [])
                  None))) 0
     = Some ("requests", 42).
Proof.
  split; [reflexivity|].
  apply (collect_keeps_plain_counters
           (fun k _ => String.eqb k "errors") (fun p k v => p ++ k ++ v)
           (mkReporter "host1" "proxy." EmptyString)
           (mkRegistry [("requests", 42); ("errors", 7)] [])
           None "requests" 42 0%nat);
    [reflexivity | intros r; reflexivity].
Defined.

(** * Further properties of proxy delivery *)

Lemma report_points_succeeds (lines : list string) (reconnect : bool)
    (st : Proxy.state) :
  Forall (fun o => o = Proxy.Succeeds)
         (firstn (Proxy.attempt_size st lines) (Proxy.network st)) ->
  Proxy._report_points lines reconnect st
  = Proxy.mkState (Some (Proxy.socket_in_use st))
      (skipn (Proxy.attempt_size st lines) (Proxy.network st))
      (Proxy.made_after st)
      (Proxy.wire st ++ Proxy.send_as (Proxy.socket_in_use st) lines)%list
      (Proxy.log st).
Proof.
  intros Hnet. unfold Proxy._report_points.
  now rewrite try_body_succeeds.
Qed.

(** The connection persists: when no operation fails, two calls in a
    row write both batches, in order, to one and the same socket; a
    socket is made only if there was none before the first call; nothing
    is logged. *)
Theorem proxy_connection_is_reused :
  forall (first second : list string) (r1 r2 : bool) (st : Proxy.state),
    Forall (fun o => o = Proxy.Succeeds)
           (firstn (Proxy.attempt_size st first + List.length second)
                   (Proxy.network st)) ->
    Proxy._report_points second r2 (Proxy._report_points first r1 st)
    = Proxy.mkState (Some (Proxy.socket_in_use st))
        (skipn (Proxy.attempt_size st first + List.length second)
               (Proxy.network st))
        (Proxy.made_after st)
        ((Proxy.wire st ++ Proxy.send_as (Proxy.socket_in_use st) first)
           ++ Proxy.send_as (Proxy.socket_in_use st) second)%list
        (Proxy.log st).
Proof.
  intros first second r1 r2 st Hnet.
  rewrite <- firstn_then_firstn in Hnet.
  apply Forall_app in Hnet. destruct Hnet as [H1 H2].
  rewrite (report_points_succeeds first r1 st H1).
  rewrite report_points_succeeds by exact H2.
  cbn. now rewrite skipn_skipn, Nat.add_comm.
Qed.

Lemma proxy_connection_is_reused_witness :
  Proxy._report_points ["c"] true
    (Proxy._report_points ["a"; "b"] true
       (Proxy.mkState None [] 0 [] []))
  = Proxy.mkState (Some 0%nat) [] 1
      (Proxy.send_as 0 ["a"; "b"] ++ Proxy.send_as 0 ["c"])%list [].
Proof.
  apply (proxy_connection_is_reused ["a"; "b"] ["c"] true true
           (Proxy.mkState None [] 0 [] [])).
  constructor.
Defined.

(** No retry without [reconnect], and none after an exception that is
    not a [socket.error]: the first failing operation ends the call with
    one log record; the lines written before it stay written, no socket
    is made beyond the attempt's own, no later operation is tried, and
    the socket attribute stays assigned. *)
Theorem proxy_no_retry :
  forall (lines : list string) (reconnect : bool) (st : Proxy.state)
         (i : nat) (o : Proxy.outcome) (e : Proxy.failure)
         (rest : list Proxy.outcome),
    Proxy.network st = (repeat Proxy.Succeeds i ++ o :: rest)%list ->
    Proxy.raised o = Some e ->
    (i < Proxy.attempt_size st lines)%nat ->
    reconnect = false \/ e = Proxy.generic_exception ->
    Proxy._report_points lines reconnect st
    = Proxy.mkState (Some (Proxy.socket_in_use st)) rest
        (Proxy.made_after st)
        (Proxy.wire st
           ++ Proxy.send_as (Proxy.socket_in_use st)
                (firstn (Proxy.sends_before st i) lines))%list
        (Proxy.log st ++ [e])%list.
Proof.
  intros lines reconnect st i o e rest Hnet Ho Hi Hwhy.
  unfold Proxy._report_points.
  rewrite (try_body_fails lines st i o e rest Hnet Ho Hi).
  destruct e; [|reflexivity].
  destruct Hwhy as [->|Habs]; [reflexivity | discriminate Habs].
Qed.

Lemma proxy_no_retry_witness :
  Proxy._report_points ["a"; "b"; "c"] true
    (Proxy.mkState (Some 4%nat)
       [Proxy.Succeeds; Proxy.OtherError; Proxy.Succeeds] 5 [] [])
  = Proxy.mkState (Some 4%nat) [Proxy.Succeeds] 5
      (Proxy.send_as 4 ["a"]) [Proxy.generic_exception].
Proof.
  apply (proxy_no_retry ["a"; "b"; "c"] true
           (Proxy.mkState (Some 4%nat)
              [Proxy.Succeeds; Proxy.OtherError; Proxy.Succeeds] 5 [] [])
           1%nat Proxy.OtherError Proxy.generic_exception
           [Proxy.Succeeds]);
    [reflexivity | reflexivity | cbn; lia | now right].
Defined.

Section ProxyCycle.

Variable is_delta_counter : string -> MetricsRegistry -> bool.
Variable get_delta_name : string -> string -> string -> string.

(** The decrements of a cycle do not wait for the delivery: whatever
    the network does, [report_now] returns the registry the collector
    leaves, so a delta counter is reset even when its batch is lost. *)
Theorem proxy_cycle_resets_whatever_the_network_does :
  forall (self : WavefrontReporter) (now : Z) (reg : MetricsRegistry)
         (timestamp : option Z) (st : Proxy.state) (key : string)
         (n : Z) (i : nat),
    NoDup (map fst (counters reg)) ->
    ~ In key (map fst (readings reg)) ->
    nth_error (counters reg) i = Some (key, n) ->
    (forall r, is_delta_counter key r = true) ->
    nth_error
      (counters (fst (Proxy.report_now is_delta_counter get_delta_name
                        self now reg timestamp st))) i
    = Some (key, 0).
Proof.
  intros self now reg timestamp st key n i Hnd Hfresh Hnth Hdelta.
  unfold Proxy.report_now.
  set (ts := if truthy_int timestamp then timestamp else Some now).
  destruct (delta_cycle is_delta_counter get_delta_name self reg ts
              key n i Hnd Hfresh Hnth Hdelta) as [_ [Hcount _]].
  rewrite Z.sub_diag in Hcount.
  destruct (_collect_metrics is_delta_counter get_delta_name self reg ts)
    as [reg1 [|line lines]]; exact Hcount.
Qed.

Lemma collect_keys_no_values (self : WavefrontReporter)
    (timestamp : option Z) (metrics : snapshot) :
  Forall (fun entry => snd entry = []) metrics ->
  forall reg,
    collect_keys is_delta_counter get_delta_name self timestamp metrics reg
    = (reg, []).
Proof.
  induction 1 as [|[key values] rest Hv _ IH]; intros reg; [reflexivity|].
  cbn in Hv. subst values. rewrite collect_keys_cons. cbn.
  rewrite IH. cbn. now destruct (is_delta_counter key reg).
Qed.

(** A snapshot without values is no cycle at all: no socket is made,
    nothing is written, nothing is logged. *)
Theorem proxy_empty_snapshot_is_a_no_op :
  forall (self : WavefrontReporter) (now : Z) (reg : MetricsRegistry)
         (timestamp : option Z) (st : Proxy.state),
    counters reg = [] ->
    Forall (fun entry => snd entry = []) (readings reg) ->
    Proxy.report_now is_delta_counter get_delta_name self now reg
                     timestamp st
    = (reg, st).
Proof.
  intros self now reg timestamp st Hcounters Hempty.
  unfold Proxy.report_now, _collect_metrics, dump_metrics.
  rewrite Hcounters. cbn [map app].
  now rewrite collect_keys_no_values.
Qed.

End ProxyCycle.

Lemma proxy_cycle_resets_whatever_the_network_does_witness :
  nth_error
    (counters
       (fst (Proxy.report_now (fun k _ => String.eqb k "errors")
               (fun p k v => p ++ k ++ v)
               (mkReporter "host1" "proxy." EmptyString) 1700000000
               (mkRegistry [("requests", 42); ("errors", 7)] []) None
               (Proxy.mkState None
                  [Proxy.SocketError; Proxy.SocketError] 0 [] [])))) 1
  = Some ("errors", 0).
Proof.
  assert (Hnd : NoDup (map fst [("requests", 42); ("errors", 7)])).
  { cbn. constructor; [intros [H|[]]; discriminate H|].
    constructor; [intros []|constructor]. }
  apply (proxy_cycle_resets_whatever_the_network_does
           (fun k _ => String.eqb k "errors") (fun p k v => p ++ k ++ v)
           (mkReporter "host1" "proxy." EmptyString) 1700000000
           (mkRegistry [("requests", 42); ("errors", 7)] []) None
           (Proxy.mkState None [Proxy.SocketError; Proxy.SocketError]
                          0 [] [])
           "errors" 7 1%nat Hnd);
    [intros [] | reflexivity | intros r; reflexivity].
Defined.

Lemma proxy_empty_snapshot_is_a_no_op_witness :
  Proxy.report_now (fun _ _ => true) (fun p k v => p ++ k ++ v)
    (mkReporter "host1" "proxy." EmptyString) 1700000000
    (mkRegistry [] [("latency", [])]) None
    (Proxy.mkState None [Proxy.SocketError] 0 [] [])
  = (mkRegistry [] [("latency", [])],
     Proxy.mkState None [Proxy.SocketError] 0 [] []).
Proof.
  apply (proxy_empty_snapshot_is_a_no_op
           (fun _ _ => true) (fun p k v => p ++ k ++ v)
           (mkReporter "host1" "proxy." EmptyString) 1700000000
           (mkRegistry [] [("latency", [])]) None
           (Proxy.mkState None [Proxy.SocketError] 0 [] []));
    [reflexivity | repeat constructor].
Defined.

(** * Further properties of direct delivery *)

Section DirectCycle.

Variable is_delta_counter : string -> MetricsRegistry -> bool.
Variable get_delta_name : string -> string -> string -> string.

(** With a batch size of 0 and something to report, [report_now] ends
    in the [ValueError] of [range] before any POST, and after the
    collector has already made its decrements. *)
Theorem direct_zero_batch_size_raises_after_collecting :
  forall (self : Direct.WavefrontDirectReporter) (reg : MetricsRegistry)
         (timestamp : option Z) (st : Direct.state),
    Direct.batch_size self = 0 ->
    snd (_collect_metrics is_delta_counter get_delta_name
                          (Direct.base self) reg None) <> [] ->
    Direct.report_now is_delta_counter get_delta_name self reg timestamp st
    = (fst (_collect_metrics is_delta_counter get_delta_name
                             (Direct.base self) reg None),
       inl (ValueError "range() arg 3 must not be zero")).
Proof.
  intros self reg timestamp st Hsize Hlines. unfold Direct.report_now.
  destruct (_collect_metrics _ _ _ _ _) as [reg1 [|line lines]];
    [now contradiction Hlines|].
  now rewrite Hsize.
Qed.

(** With a negative batch size nothing is sent and nothing is said: no
    POST, no log record, no exception, while the collector has made its
    decrements. *)
Theorem direct_negative_batch_size_sends_nothing :
  forall (self : Direct.WavefrontDirectReporter) (reg : MetricsRegistry)
         (timestamp : option Z) (st : Direct.state),
    Direct.batch_size self < 0 ->
    Direct.report_now is_delta_counter get_delta_name self reg timestamp st
    = (fst (_collect_metrics is_delta_counter get_delta_name
                             (Direct.base self) reg None),
       inr st).
Proof.
  intros self reg timestamp st Hsize. unfold Direct.report_now.
  destruct (_collect_metrics _ _ _ _ _) as [reg1 [|line lines]];
    [reflexivity|].
  unfold Direct._get_chunks, Direct.range.
  destruct (Z.eqb_spec (Direct.batch_size self) 0) as [E|_]; [lia|].
  destruct (Z.ltb_spec (Direct.batch_size self) 0) as [_|E]; [|lia].
  reflexivity.
Qed.

(** A snapshot without values makes no POST. *)
Theorem direct_empty_snapshot_is_a_no_op :
  forall (self : Direct.WavefrontDirectReporter) (reg : MetricsRegistry)
         (timestamp : option Z) (st : Direct.state),
    counters reg = [] ->
    Forall (fun entry => snd entry = []) (readings reg) ->
    Direct.report_now is_delta_counter get_delta_name self reg timestamp st
    = (reg, inr st).
Proof.
  intros self reg timestamp st Hcounters Hempty.
  unfold Direct.report_now, _collect_metrics, dump_metrics.
  rewrite Hcounters. cbn [map app].
  now rewrite collect_keys_no_values.
Qed.

End DirectCycle.

Lemma direct_zero_batch_size_raises_after_collecting_witness :
  Direct.report_now (fun k _ => String.eqb k "errors")
    (fun p k v => p ++ k ++ v)
    (Direct.mkDirect (mkReporter "host1" "direct." EmptyString)
       "https://metrics.wavefront.com" "token" 0 [] [])
    (mkRegistry [("errors", 7)] []) None (Direct.mkState [] [] [])
  = (mkRegistry [("errors", 0)] [],
     inl (ValueError "range() arg 3 must not be zero")).
Proof.
  apply (direct_zero_batch_size_raises_after_collecting
           (fun k _ => String.eqb k "errors") (fun p k v => p ++ k ++ v)
           (Direct.mkDirect (mkReporter "host1" "direct." EmptyString)
              "https://metrics.wavefront.com" "token" 0 [] [])
           (mkRegistry [("errors", 7)] []) None (Direct.mkState [] [] []));
    [reflexivity | discriminate].
Defined.

Lemma direct_negative_batch_size_sends_nothing_witness :
  Direct.report_now (fun k _ => String.eqb k "errors")
    (fun p k v => p ++ k ++ v)
    (Direct.mkDirect (mkReporter "host1" "direct." EmptyString)
       "https://metrics.wavefront.com" "token" (-1) [] [])
    (mkRegistry [("errors", 7)] []) None (Direct.mkState [] [] [])
  = (mkRegistry [("errors", 0)] [], inr (Direct.mkState [] [] [])).
Proof.
  apply (direct_negative_batch_size_sends_nothing
           (fun k _ => String.eqb k "errors") (fun p k v => p ++ k ++ v)
           (Direct.mkDirect (mkReporter "host1" "direct." EmptyString)
              "https://metrics.wavefront.com" "token" (-1) [] [])
           (mkRegistry [("errors", 7)] []) None (Direct.mkState [] [] [])).
  reflexivity.
Defined.

Lemma direct_empty_snapshot_is_a_no_op_witness :
  Direct.report_now (fun _ _ => true) (fun p k v => p ++ k ++ v)
    (Direct.mkDirect (mkReporter "host1" "direct." EmptyString)
       "https://metrics.wavefront.com" "token" 10000 [] [])
    (mkRegistry [] [("latency", [])]) None
    (Direct.mkState [Direct.TransportError] [] [])
  = (mkRegistry [] [("latency", [])],
     inr (Direct.mkState [Direct.TransportError] [] [])).
Proof.
  apply (direct_empty_snapshot_is_a_no_op
           (fun _ _ => true) (fun p k v => p ++ k ++ v)
           (Direct.mkDirect (mkReporter "host1" "direct." EmptyString)
              "https://metrics.wavefront.com" "token" 10000 [] [])
           (mkRegistry [] [("latency", [])]) None
           (Direct.mkState [Direct.TransportError] [] []));
    [reflexivity | repeat constructor].
Defined.

(** Lines that fit in one batch travel in one POST: a non-empty list
    of at most [chunk_size] lines is a single chunk, the list itself. *)
Theorem get_chunks_single_chunk :
  forall (metrics : list string) (chunk_size : Z),
    metrics <> [] ->
    Z.of_nat (List.length metrics) <= chunk_size ->
    Direct._get_chunks metrics chunk_size = inr [metrics].
Proof.
  intros metrics k Hne Hfit.
  assert (Hpos : (0 < List.length metrics)%nat)
    by (destruct metrics; [contradiction | cbn; lia]).
  rewrite get_chunks_eq by lia.
  assert (Hone : (Z.of_nat (List.length metrics) + k - 1) / k = 1).
  { symmetry.
    apply Z.div_unique with (r := Z.of_nat (List.length metrics) - 1); lia. }
  rewrite Hone. change (Z.to_nat 1) with 1%nat.
  cbn [seq map Nat.mul skipn].
  rewrite firstn_all2 by lia. reflexivity.
Qed.

Lemma get_chunks_single_chunk_witness :
  ["a"; "b"] <> []
  /\ Z.of_nat (List.length ["a"; "b"]) <= 10000
  /\ Direct._get_chunks ["a"; "b"] 10000 = inr [["a"; "b"]].
Proof.
  split; [discriminate|]. split; [cbn; lia|].
  apply get_chunks_single_chunk; [discriminate | cbn; lia].
Defined.

(** Every POST of a reporter that [__init__] built goes to
    [server + "/report"] with the query [f=graphite_v2], the content
    type [text/plain] and the bearer token, and carries its chunk joined
    by line feeds. *)
Theorem direct_requests_carry_the_configuration :
  forall (urlparse : string -> exn + Direct.ParseResult)
         (srv tok src pfx : string) (tags : option (list (string * string)))
         (self : Direct.WavefrontDirectReporter)
         (chunks : list (list string)) (st : Direct.state),
    Direct.init urlparse srv tok src pfx tags = inr self ->
    Direct.posted (Direct.report_chunks self chunks st)
    = (Direct.posted st
         ++ map (fun chunk =>
                   Direct.mkRequest (srv ++ "/report")%string
                     [("f", "graphite_v2")]
                     [("Content-Type", "text/plain");
                      ("Authorization", ("Bearer " ++ tok)%string)]
                     (join newline chunk))
                chunks)%list.
Proof.
  intros urlparse srv tok src pfx tags self chunks st Hinit.
  rewrite report_chunks_run. cbn [Direct.posted]. f_equal.
  unfold Direct.init, Direct._validate_url in Hinit.
  destruct (urlparse srv) as [e|parsed]; [discriminate|].
  destruct (negb _); [discriminate|]. inversion Hinit. subst self.
  reflexivity.
Qed.

Lemma direct_requests_carry_the_configuration_witness :
  Direct.init (Direct.urlsplit (fun _ => None) (fun _ => None))
              "https://metrics.wavefront.com" "secret"
              "host1" "direct." None
  = inr (Direct.mkDirect (WavefrontReporter_init "host1" "direct." None)
           "https://metrics.wavefront.com" "secret" 10000
           [("Content-Type", "text/plain");
            ("Authorization", "Bearer secret")]
           [("f", "graphite_v2")])
  /\ Direct.posted
       (Direct.report_chunks
          (Direct.mkDirect (WavefrontReporter_init "host1" "direct." None)
             "https://metrics.wavefront.com" "secret" 10000
             [("Content-Type", "text/plain");
              ("Authorization", "Bearer secret")]
             [("f", "graphite_v2")])
          [["a"; "b"]] (Direct.mkState [] [] []))
     = [Direct.mkRequest "https://metrics.wavefront.com/report"
          [("f", "graphite_v2")]
          [("Content-Type", "text/plain");
           ("Authorization", "Bearer secret")]
          (join newline ["a"; "b"])].
Proof.
  split; [reflexivity|].
  apply (direct_requests_carry_the_configuration
           (Direct.urlsplit (fun _ => None) (fun _ => None))
           "https://metrics.wavefront.com" "secret" "host1" "direct." None
           _ [["a"; "b"]] (Direct.mkState [] [] [])).
  reflexivity.
Defined.

Lemma errors_of_healthy (count : nat) :
  forall ep : list Direct.response,
    Forall (fun a => Direct.error_of a = None) (firstn count ep) ->
    Direct.errors_of ep count = [].
Proof.
  induction count as [|n IH]; intros ep Hok; [reflexivity|].
  rewrite errors_of_S. destruct ep as [|a ep]; cbn [tl].
  - unfold Direct.answer_at. cbn. apply IH. now rewrite firstn_nil.
  - cbn in Hok. inversion Hok as [|? ? Ha Hrest]; subst.
    unfold Direct.answer_at. cbn [nth]. rewrite Ha. now apply IH.
Qed.

Lemma errors_of_length (count : nat) :
  forall ep : list Direct.response,
    (List.length (Direct.errors_of ep count) <= count)%nat.
Proof.
  induction count as [|n IH]; intros ep; [cbn; lia|].
  rewrite errors_of_S, length_app. specialize (IH (tl ep)).
  destruct (Direct.error_of _); cbn; lia.
Qed.

(** The log of a cycle grows by at most one record per chunk, and not
    at all when none of the answers is a 4xx or 5xx status or a
    transport error. *)
Theorem direct_log_grows_with_failures_only :
  forall (self : Direct.WavefrontDirectReporter)
         (chunks : list (list string)) (st : Direct.state),
    (List.length (Direct.log (Direct.report_chunks self chunks st))
     <= List.length (Direct.log st) + List.length chunks)%nat
    /\ (Forall (fun a => Direct.error_of a = None)
               (firstn (List.length chunks) (Direct.endpoint st)) ->
        Direct.log (Direct.report_chunks self chunks st) = Direct.log st).
Proof.
  intros self chunks st. rewrite report_chunks_run. cbn [Direct.log].
  split.
  - rewrite length_app.
    pose proof (errors_of_length (List.length chunks) (Direct.endpoint st)).
    lia.
  - intros Hok. rewrite errors_of_healthy by assumption.
    now rewrite app_nil_r.
Qed.

Lemma direct_log_grows_with_failures_only_witness :
  Direct.log
    (Direct.report_chunks
       (Direct.mkDirect (mkReporter "host1" "direct." EmptyString)
          "https://metrics.wavefront.com" "token" 1 [] [])
       [["a"]; ["b"]]
       (Direct.mkState [Direct.Status 202; Direct.Status 304;
                        Direct.Status 500]
                       [] [Direct.RequestException]))
  = [Direct.RequestException].
Proof.
  apply (direct_log_grows_with_failures_only
           (Direct.mkDirect (mkReporter "host1" "direct." EmptyString)
              "https://metrics.wavefront.com" "token" 1 [] [])
           [["a"]; ["b"]]
           (Direct.mkState [Direct.Status 202; Direct.Status 304;
                            Direct.Status 500]
                           [] [Direct.RequestException])).
  repeat constructor.
Defined.

(** * Further properties of the server validation *)

Lemma lstrip_keeps_absent (c : ascii) (s : string) :
  contains c s = false -> contains c (Direct.lstrip_c0 s) = false.
Proof.
  induction s as [|x s IH]; [reflexivity|]. intros H.
  cbn [Direct.lstrip_c0]. destruct (Direct.in_range 0 32 x); [|exact H].
  cbn in H. apply orb_false_iff in H. now apply IH.
Qed.

Lemma remove_keeps_absent (c : ascii) (s : string) :
  contains c s = false -> contains c (Direct.remove_unsafe s) = false.
Proof.
  induction s as [|x s IH]; [reflexivity|]. intros H.
  cbn in H. apply orb_false_iff in H. destruct H as [Hx Hs].
  cbn [Direct.remove_unsafe]. destruct (Direct.is_unsafe x); [now apply IH|].
  cbn. rewrite Hx. now apply IH.
Qed.

Lemma split_colon_none (u : string) :
  contains ":" u = false -> Direct.split_colon u = None.
Proof.
  induction u as [|c u IH]; [reflexivity|]. cbn. intros H.
  apply orb_false_iff in H. destruct H as [Hc Hu].
  rewrite Hc. now rewrite IH.
Qed.

Lemma split_colon_some (u before after : string) :
  Direct.split_colon u = Some (before, after) ->
  u = before ++ ":" ++ after.
Proof.
  revert before. induction u as [|c u IH]; intros before H; [discriminate|].
  cbn in H. destruct (Ascii.eqb_spec c ":") as [->|Hc].
  - inversion H. reflexivity.
  - destruct (Direct.split_colon u) as [[b a]|]; [|discriminate].
    inversion H; subst. cbn. f_equal. now apply IH.
Qed.

Lemma split_scheme_found (u sch rest : string) :
  Direct.split_scheme u = (sch, rest) ->
  truthy_str sch = true ->
  exists (c : ascii) (before : string),
    u = String c before ++ ":" ++ rest
    /\ Direct.is_alpha c = true
    /\ Direct.all_chars Direct.is_scheme_char before = true.
Proof.
  unfold Direct.split_scheme.
  destruct (Direct.split_colon u) as [[[|c before] after]|] eqn:Hsplit;
    try (intros H; inversion H; subst; discriminate).
  destruct (Direct.is_alpha c
            && Direct.all_chars Direct.is_scheme_char before) eqn:Hvalid;
    [|intros H; inversion H; subst; discriminate].
  intros H _. inversion H; subst.
  apply andb_true_iff in Hvalid. destruct Hvalid as [Hc Hbefore].
  exists c, before. split; [now apply split_colon_some | now split].
Qed.

Lemma after_slashes_some (s rest : string) :
  Direct.after_slashes s = Some rest -> s = "//" ++ rest.
Proof.
  destruct s as [|a [|b s]]; try discriminate. cbn.
  destruct (Ascii.eqb_spec a "/") as [->|_]; [|discriminate].
  destruct (Ascii.eqb_spec b "/") as [->|_]; [|discriminate].
  intros H. now inversion H.
Qed.

(** A server string without a colon is never accepted, under the
    standard parser: [__init__] raises, and builds no reporter. *)
Theorem server_without_colon_is_refused :
  forall (check_bracketed_netloc checknetloc : string -> option exn)
         (srv tok src pfx : string) (tags : option (list (string * string))),
    contains ":" srv = false ->
    exists e,
      Direct.init (Direct.urlsplit check_bracketed_netloc checknetloc)
                  srv tok src pfx tags
      = inl e.
Proof.
  intros check1 check2 srv tok src pfx tags Hno.
  unfold Direct.init, Direct._validate_url, Direct.urlsplit,
    Direct.split_scheme.
  rewrite (split_colon_none _
             (remove_keeps_absent _ _ (lstrip_keeps_absent _ _ Hno))).
  destruct (Direct.after_slashes _) as [rest2|]; [|now eexists].
  destruct (xorb _ _); [now eexists|].
  destruct (if _ && _ then _ else _) as [e1|]; [now eexists|].
  destruct (if Direct.isascii _ then _ else _) as [e2|]; now eexists.
Qed.

Lemma server_without_colon_is_refused_witness :
  contains ":" "metrics.wavefront.com/api" = false
  /\ exists e,
       Direct.init (Direct.urlsplit (fun _ => None) (fun _ => None))
                   "metrics.wavefront.com/api" "token" "host1" "direct."
                   None
       = inl e.
Proof.
  split; [reflexivity|].
  now apply server_without_colon_is_refused.
Defined.

(** A server string the validation accepts is returned unchanged, and
    once stripped of leading control characters and spaces and freed of
    tabs, line feeds and carriage returns it reads [scheme://netloc...]:
    a letter, then scheme characters, then [://], then at least one
    character that is none of [/], [?], [#]. *)
Theorem accepted_server_has_scheme_and_netloc :
  forall (check_bracketed_netloc checknetloc : string -> option exn)
         (srv accepted : string),
    Direct._validate_url
      (Direct.urlsplit check_bracketed_netloc checknetloc) srv
    = inr accepted ->
    accepted = srv
    /\ exists (c : ascii) (sch rest : string),
         Direct.remove_unsafe (Direct.lstrip_c0 srv)
         = String c sch ++ "://" ++ rest
         /\ Direct.is_alpha c = true
         /\ Direct.all_chars Direct.is_scheme_char sch = true
         /\ truthy_str (Direct.take_netloc rest) = true.
Proof.
  intros check1 check2 srv accepted.
  unfold Direct._validate_url, Direct.urlsplit.
  destruct (Direct.split_scheme _) as [sch rest] eqn:Hscheme.
  destruct (Direct.after_slashes rest) as [rest2|] eqn:Hslashes.
  - destruct (xorb _ _); [discriminate|].
    destruct (if _ && _ then _ else _) as [e1|]; [discriminate|].
    destruct (if Direct.isascii _ then _ else _) as [e2|]; [discriminate|].
    cbn [Direct.scheme Direct.netloc].
    destruct (truthy_str sch) eqn:Hsch; cbn [andb negb]; [|discriminate].
    destruct (truthy_str (Direct.take_netloc rest2)) eqn:Hnet;
      cbn [negb]; [|discriminate].
    intros H. inversion H. subst accepted. split; [reflexivity|].
    destruct (split_scheme_found _ _ _ Hscheme Hsch)
      as [c [before [Hurl [Hc Hbefore]]]].
    apply after_slashes_some in Hslashes. subst rest.
    exists c, before, rest2.
    split; [exact Hurl|]. split; [exact Hc|]. split; [exact Hbefore|].
    exact Hnet.
  - cbn [Direct.scheme Direct.netloc truthy_str].
    rewrite andb_false_r. discriminate.
Qed.

Lemma accepted_server_has_scheme_and_netloc_witness :
  Direct._validate_url (Direct.urlsplit (fun _ => None) (fun _ => None))
                       " https://metrics.wavefront.com"
  = inr " https://metrics.wavefront.com"
  /\ exists (c : ascii) (sch rest : string),
       "https://metrics.wavefront.com" = String c sch ++ "://" ++ rest
       /\ Direct.is_alpha c = true
       /\ Direct.all_chars Direct.is_scheme_char sch = true
       /\ truthy_str (Direct.take_netloc rest) = true.
Proof.
  split; [reflexivity|].
  exact (proj2 (accepted_server_has_scheme_and_netloc
                  (fun _ => None) (fun _ => None)
                  " https://metrics.wavefront.com"
                  " https://metrics.wavefront.com" eq_refl)).
Defined.

(** * Framing *)

Lemma contains_append (c : ascii) (a b : string) :
  contains c (a ++ b) = contains c a || contains c b.
Proof.
  induction a as [|x a IH]; [reflexivity|].
  cbn. now rewrite IH, orb_assoc.
Qed.

Lemma uint_has_no_line_feed (d : Decimal.uint) :
  contains LF (NilEmpty.string_of_uint d) = false.
Proof. induction d; cbn; auto. Qed.

Lemma py_str_has_no_line_feed (n : Z) : contains LF (py_str n) = false.
Proof.
  unfold py_str, NilZero.string_of_int, NilZero.string_of_uint.
  destruct (Z.to_int n) as [d|d]; destruct d; cbn;
    auto using uint_has_no_line_feed.
Qed.

(** A line has no line feed of its own: when the name, the source and
    the tag string are free of line feeds, so is the rendered line,
    with or without timestamp. *)
Theorem metric_line_has_no_line_feed :
  forall (self : WavefrontReporter) (name : string) (value : Z)
         (timestamp : option Z),
    contains LF name = false ->
    contains LF (source self) = false ->
    contains LF (tagStr self) = false ->
    contains LF (_get_metric_line self name value timestamp) = false.
Proof.
  intros self name value timestamp Hname Hsource Htags.
  unfold _get_metric_line.
  destruct (truthy_int timestamp); [destruct timestamp as [t|]|];
    rewrite ?contains_append, ?Hname, ?Hsource, ?Htags,
      ?py_str_has_no_line_feed;
    reflexivity.
Qed.

Lemma metric_line_has_no_line_feed_witness :
  contains LF "direct.requests.count" = false
  /\ contains LF
       (_get_metric_line (WavefrontReporter_init "host1" "direct."
                            (Some [("env", "prod")]))
                         "direct.requests.count" (-42) (Some 1700000000))
     = false.
Proof.
  split; [reflexivity|].
  apply metric_line_has_no_line_feed; reflexivity.
Defined.

Lemma cut_at_line_feed (a : string) :
  forall b x y : string,
    contains LF a = false ->
    contains LF b = false ->
    a ++ newline ++ x = b ++ newline ++ y ->
    a = b /\ x = y.
Proof.
  induction a as [|c a IH]; intros b x y Ha Hb Heq.
  - destruct b as [|d b]; cbn in Heq.
    + inversion Heq. now split.
    + inversion Heq as [[Hd Hrest]]. subst d. cbn in Hb.
      discriminate Hb.
  - destruct b as [|d b]; cbn in Heq.
    + inversion Heq as [[Hc Hrest]]. subst c. cbn in Ha.
      discriminate Ha.
    + inversion Heq as [[Hc Hrest]]. subst d.
      cbn in Ha, Hb. apply orb_false_iff in Ha, Hb.
      destruct (IH b x y (proj2 Ha) (proj2 Hb) Hrest) as [-> ->].
      now split.
Qed.

Lemma whole_is_not_cut (a b y : string) :
  contains LF a = false -> a <> b ++ newline ++ y.
Proof.
  intros Ha Heq. apply (f_equal (contains LF)) in Heq.
  rewrite Ha, !contains_append in Heq. cbn in Heq.
  rewrite orb_true_r in Heq. discriminate Heq.
Qed.

(** The body of a POST determines its chunk: two non-empty chunks of
    lines free of line feeds that join to the same text are the same
    chunk. *)
Theorem payload_determines_chunk :
  forall chunk1 chunk2 : list string,
    chunk1 <> [] -> chunk2 <> [] ->
    Forall (fun line => contains LF line = false) chunk1 ->
    Forall (fun line => contains LF line = false) chunk2 ->
    join newline chunk1 = join newline chunk2 ->
    chunk1 = chunk2.
Proof.
  induction chunk1 as [|x rest1 IH]; intros chunk2 Hne1 Hne2 H1 H2 Heq;
    [contradiction|].
  destruct chunk2 as [|y rest2]; [contradiction|].
  inversion H1 as [|? ? Hx Hrest1]; subst.
  inversion H2 as [|? ? Hy Hrest2]; subst.
  destruct rest1 as [|x' rest1]; destruct rest2 as [|y' rest2].
  - cbn in Heq. now subst.
  - exfalso. cbn [join] in Heq. exact (whole_is_not_cut x y _ Hx Heq).
  - exfalso. cbn [join] in Heq. symmetry in Heq.
    exact (whole_is_not_cut y x _ Hy Heq).
  - change (x ++ newline ++ join newline (x' :: rest1)
            = y ++ newline ++ join newline (y' :: rest2)) in Heq.
    destruct (cut_at_line_feed x y _ _ Hx Hy Heq) as [-> Hjoin].
    f_equal. apply IH; [discriminate | discriminate | assumption..].
Qed.

Lemma payload_determines_chunk_witness :
  join newline ["a 1"; "b 2"] = join newline ["a 1"; "b 2"]
  /\ ["a 1"; "b 2"] = ["a 1"; "b 2"].
Proof.
  split; [reflexivity|].
  apply payload_determines_chunk;
    [discriminate | discriminate | repeat constructor
     | repeat constructor | reflexivity].
Defined.

Lemma send_all_shape (lines : list string) :
  forall (st : Proxy.state) (sock : nat),
    Proxy.proxy_socket st = Some sock ->
    exists k,
      Proxy.proxy_socket (snd (Proxy.send_all lines st)) = Some sock
      /\ Proxy.wire (snd (Proxy.send_all lines st))
         = (Proxy.wire st ++ Proxy.send_as sock (firstn k lines))%list.
Proof.
  induction lines as [|line rest IH]; intros st sock Hsock.
  - exists 0%nat. cbn. split; [assumption | now rewrite app_nil_r].
  - cbn [Proxy.send_all]. unfold Proxy.bind, Proxy.send, Proxy.attempt.
    rewrite Hsock.
    destruct st as [s [|o net] made wire log]; cbn in Hsock; subst s; cbn.
    + destruct (IH (Proxy.mkState (Some sock) [] made
                      (wire ++ [(sock, (line ++ newline)%string)])%list log)
                   sock eq_refl) as [k [Hs Hw]].
      exists (S k). split; [exact Hs|]. rewrite Hw. cbn.
      now rewrite <- app_assoc.
    + destruct (Proxy.raised o); cbn.
      * exists 0%nat. split; [reflexivity | now rewrite app_nil_r].
      * destruct (IH (Proxy.mkState (Some sock) net made
                        (wire ++ [(sock, (line ++ newline)%string)])%list log)
                     sock eq_refl) as [k [Hs Hw]].
        exists (S k). split; [exact Hs|]. rewrite Hw. cbn.
        now rewrite <- app_assoc.
Qed.

Lemma try_body_shape (lines : list string) (st : Proxy.state) :
  exists k,
    Proxy.proxy_socket (snd (Proxy.try_body lines st))
    = Some (Proxy.socket_in_use st)
    /\ Proxy.wire (snd (Proxy.try_body lines st))
       = (Proxy.wire st
            ++ Proxy.send_as (Proxy.socket_in_use st) (firstn k lines))%list
    /\ Proxy.sockets_made (snd (Proxy.try_body lines st))
       = Proxy.made_after st.
Proof.
  unfold Proxy.try_body, Proxy.bind, Proxy.socket_in_use, Proxy.made_after.
  destruct st as [[sock|] net made wire log]; cbn.
  - destruct (send_all_shape lines
                (Proxy.mkState (Some sock) net made wire log) sock eq_refl)
      as [k [Hs Hw]].
    exists k. split; [exact Hs|]. split; [exact Hw|].
    apply (send_all_frame lines
             (Proxy.mkState (Some sock) net made wire log)).
  - unfold Proxy._connect, Proxy.attempt. destruct net as [|o net]; cbn.
    + destruct (send_all_shape lines
                  (Proxy.mkState (Some made) [] (S made) wire log) made
                  eq_refl) as [k [Hs Hw]].
      exists k. split; [exact Hs|]. split; [exact Hw|].
      apply (send_all_frame lines
               (Proxy.mkState (Some made) [] (S made) wire log)).
    + destruct (Proxy.raised o); cbn.
      * exists 0%nat. split; [reflexivity|].
        split; [now rewrite app_nil_r | reflexivity].
      * destruct (send_all_shape lines
                    (Proxy.mkState (Some made) net (S made) wire log) made
                    eq_refl) as [k [Hs Hw]].
        exists k. split; [exact Hs|]. split; [exact Hw|].
        apply (send_all_frame lines
                 (Proxy.mkState (Some made) net (S made) wire log)).
Qed.

(** Whatever the network does, a call writes nothing but lines of its
    batch, each followed by a line feed, in order from the first: a
    beginning of the batch on the socket it starts with and, after a
    reconnect, a beginning of the batch on the new socket; and it
    returns with the socket attribute assigned. *)
Theorem proxy_writes_only_beginnings_of_the_batch :
  forall (lines : list string) (reconnect : bool) (st : Proxy.state),
    exists k1 k2 sock,
      Proxy.wire (Proxy._report_points lines reconnect st)
      = ((Proxy.wire st
            ++ Proxy.send_as (Proxy.socket_in_use st) (firstn k1 lines))
           ++ Proxy.send_as (Proxy.made_after st) (firstn k2 lines))%list
      /\ Proxy.proxy_socket (Proxy._report_points lines reconnect st)
         = Some sock.
Proof.
  intros lines reconnect st.
  destruct (try_body_shape lines st) as [k1 [Hs1 [Hw1 Hm1]]].
  unfold Proxy._report_points.
  destruct (Proxy.try_body lines st) as [[e|u] st1]; cbn [snd] in *.
  - assert (Hlast :
              exists k2 sock,
                Proxy.wire (Proxy._report_points_last lines
                              (Proxy.forget_socket st1))
                = ((Proxy.wire st
                      ++ Proxy.send_as (Proxy.socket_in_use st)
                           (firstn k1 lines))
                     ++ Proxy.send_as (Proxy.made_after st)
                          (firstn k2 lines))%list
                /\ Proxy.proxy_socket
                     (Proxy._report_points_last lines
                        (Proxy.forget_socket st1))
                   = Some sock).
    { destruct (try_body_shape lines (Proxy.forget_socket st1))
        as [k2 [Hs2 [Hw2 _]]].
      unfold Proxy.socket_in_use in Hs2, Hw2. cbn in Hs2, Hw2.
      rewrite Hm1, Hw1 in Hw2. rewrite Hm1 in Hs2.
      exists k2, (Proxy.made_after st).
      unfold Proxy._report_points_last.
      destruct (Proxy.try_body lines (Proxy.forget_socket st1))
        as [[e2|u2] st2]; cbn [snd] in *; cbn; now split. }
    assert (Hlog :
              exists k2 sock,
                Proxy.wire (Proxy.logging_error e st1)
                = ((Proxy.wire st
                      ++ Proxy.send_as (Proxy.socket_in_use st)
                           (firstn k1 lines))
                     ++ Proxy.send_as (Proxy.made_after st)
                          (firstn k2 lines))%list
                /\ Proxy.proxy_socket (Proxy.logging_error e st1)
                   = Some sock).
    { exists 0%nat, (Proxy.socket_in_use st). cbn.
      split; [now rewrite app_nil_r | assumption]. }
    exists k1.
    destruct e; [destruct reconnect|]; assumption.
  - exists k1, 0%nat, (Proxy.socket_in_use st).
    split; [cbn; now rewrite app_nil_r | assumption].
Qed.

(** * Whole cycles *)

Section WholeCycles.

Variable is_delta_counter : string -> MetricsRegistry -> bool.
Variable get_delta_name : string -> string -> string -> string.

(** A cycle over a network on which nothing fails writes every
    collected line once, in the order of the snapshot, each followed by
    a line feed, all to one socket, and logs nothing. *)
Theorem proxy_healthy_cycle_delivers_every_line :
  forall (self : WavefrontReporter) (now : Z) (reg : MetricsRegistry)
         (timestamp : option Z) (st : Proxy.state),
    Forall (fun o => o = Proxy.Succeeds) (Proxy.network st) ->
    Proxy.wire (snd (Proxy.report_now is_delta_counter get_delta_name
                       self now reg timestamp st))
    = (Proxy.wire st
         ++ Proxy.send_as (Proxy.socket_in_use st)
              (snd (_collect_metrics is_delta_counter get_delta_name self
                      reg (if truthy_int timestamp then timestamp
                           else Some now))))%list
    /\ Proxy.log (snd (Proxy.report_now is_delta_counter get_delta_name
                         self now reg timestamp st))
       = Proxy.log st.
Proof.
  intros self now reg timestamp st Hnet. unfold Proxy.report_now.
  destruct (_collect_metrics _ _ _ _ _) as [reg1 [|line lines]];
    cbn [snd].
  - cbn. now rewrite app_nil_r.
  - rewrite report_points_succeeds; [now split|].
    rewrite <- (firstn_skipn (Proxy.attempt_size st (line :: lines))
                             (Proxy.network st)) in Hnet.
    apply Forall_app in Hnet. apply Hnet.
Qed.

(** The direct reporter, too, decrements before it delivers: whatever
    the endpoint answers and whatever the batch size, a delta counter
    is at 0 after [report_now]. *)
Theorem direct_cycle_resets_whatever_the_endpoint_does :
  forall (self : Direct.WavefrontDirectReporter) (reg : MetricsRegistry)
         (timestamp : option Z) (st : Direct.state) (key : string)
         (n : Z) (i : nat),
    NoDup (map fst (counters reg)) ->
    ~ In key (map fst (readings reg)) ->
    nth_error (counters reg) i = Some (key, n) ->
    (forall r, is_delta_counter key r = true) ->
    nth_error
      (counters (fst (Direct.report_now is_delta_counter get_delta_name
                        self reg timestamp st))) i
    = Some (key, 0).
Proof.
  intros self reg timestamp st key n i Hnd Hfresh Hnth Hdelta.
  unfold Direct.report_now.
  destruct (delta_cycle is_delta_counter get_delta_name (Direct.base self)
              reg None key n i Hnd Hfresh Hnth Hdelta) as [_ [Hcount _]].
  rewrite Z.sub_diag in Hcount.
  destruct (_collect_metrics is_delta_counter get_delta_name
                             (Direct.base self) reg None)
    as [reg1 [|line lines]]; [exact Hcount|].
  destruct (Direct._get_chunks _ _); exact Hcount.
Qed.

End WholeCycles.

Lemma proxy_healthy_cycle_delivers_every_line_witness :
  Proxy.wire
    (snd (Proxy.report_now (fun _ _ => false) (fun p k v => p ++ k ++ v)
            (mkReporter "host1" "proxy." EmptyString) 1700000000
            (mkRegistry [("requests", 42)] []) (Some 5)
            (Proxy.mkState None [Proxy.Succeeds] 0 [] [])))
  = Proxy.send_as 0
      [_get_metric_line (mkReporter "host1" "proxy." EmptyString)
                        "proxy.requests.count" 42 (Some 5)].
Proof.
  apply (proxy_healthy_cycle_delivers_every_line
           (fun _ _ => false) (fun p k v => p ++ k ++ v)
           (mkReporter "host1" "proxy." EmptyString) 1700000000
           (mkRegistry [("requests", 42)] []) (Some 5)
           (Proxy.mkState None [Proxy.Succeeds] 0 [] [])).
  repeat constructor.
Defined.

Lemma direct_cycle_resets_whatever_the_endpoint_does_witness :
  nth_error
    (counters
       (fst (Direct.report_now (fun k _ => String.eqb k "errors")
               (fun p k v => p ++ k ++ v)
               (Direct.mkDirect (mkReporter "host1" "direct." EmptyString)
                  "https://metrics.wavefront.com" "token" 10000 [] [])
               (mkRegistry [("errors", 7)] []) None
               (Direct.mkState [Direct.TransportError] [] [])))) 0
  = Some ("errors", 0).
Proof.
  assert (Hnd : NoDup (map fst [("errors", 7)]))
    by (cbn; constructor; [intros [] | constructor]).
  apply (direct_cycle_resets_whatever_the_endpoint_does
           (fun k _ => String.eqb k "errors") (fun p k v => p ++ k ++ v)
           (Direct.mkDirect (mkReporter "host1" "direct." EmptyString)
              "https://metrics.wavefront.com" "token" 10000 [] [])
           (mkRegistry [("errors", 7)] []) None
           (Direct.mkState [Direct.TransportError] [] [])
           "errors" 7 0%nat Hnd);
    [intros [] | reflexivity | intros r; reflexivity].
Defined.

(** * The timestamp of a proxy cycle *)

Lemma report_points_wire (lines : list string) (reconnect : bool)
    (st : Proxy.state) :
  exists k1 k2,
    Proxy.wire (Proxy._report_points lines reconnect st)
    = ((Proxy.wire st
          ++ Proxy.send_as (Proxy.socket_in_use st) (firstn k1 lines))
         ++ Proxy.send_as (Proxy.made_after st) (firstn k2 lines))%list.
Proof.
  destruct (try_body_shape lines st) as [k1 [_ [Hw1 Hm1]]].
  unfold Proxy._report_points.
  destruct (Proxy.try_body lines st) as [[e|u] st1]; cbn [snd] in *.
  - exists k1.
    assert (Hlog : exists k2,
               Proxy.wire (Proxy.logging_error e st1)
               = ((Proxy.wire st
                     ++ Proxy.send_as (Proxy.socket_in_use st)
                          (firstn k1 lines))
                    ++ Proxy.send_as (Proxy.made_after st)
                         (firstn k2 lines))%list)
      by (exists 0%nat; cbn; now rewrite app_nil_r).
    destruct e; [destruct reconnect|]; try exact Hlog.
    destruct (try_body_shape lines (Proxy.forget_socket st1))
      as [k2 [_ [Hw2 _]]].
    unfold Proxy.socket_in_use in Hw2. cbn in Hw2. rewrite Hm1, Hw1 in Hw2.
    exists k2. unfold Proxy._report_points_last.
    destruct (Proxy.try_body lines (Proxy.forget_socket st1))
      as [[e2|u2] st2]; cbn [snd] in *; cbn; assumption.
  - exists k1, 0%nat. cbn. now rewrite app_nil_r.
Qed.

(** The proxy [report_now] stamps the lines of a cycle with the
    timestamp it is given when that is neither [None] nor 0, otherwise
    with the rounded clock reading, and with nothing when that reading
    is 0 as well; the lines so stamped are the batch it hands to
    [_report_points], and beginnings of that batch are all that is
    written. *)
Theorem proxy_lines_are_stamped_by_the_clock :
  forall (is_delta_counter : string -> MetricsRegistry -> bool)
         (get_delta_name : string -> string -> string -> string)
         (self : WavefrontReporter) (now : Z) (reg : MetricsRegistry)
         (timestamp : option Z) (st : Proxy.state),
    exists (deltas : list bool) (lines : list string),
      List.length deltas = List.length (dump_metrics reg)
      /\ lines
         = rendered_lines get_delta_name self
             (match timestamp with
              | Some t =>
                  if t =? 0 then (if now =? 0 then None else Some now)
                  else Some t
              | None => if now =? 0 then None else Some now
              end)
             (dump_metrics reg) deltas
      /\ Proxy.report_now is_delta_counter get_delta_name self now reg
                          timestamp st
         = (fst (_collect_metrics is_delta_counter get_delta_name self reg
                   (if truthy_int timestamp then timestamp else Some now)),
            match lines with
            | [] => st
            | _ :: _ => Proxy._report_points lines true st
            end)
      /\ exists k1 k2,
           Proxy.wire (snd (Proxy.report_now is_delta_counter
                              get_delta_name self now reg timestamp st))
           = ((Proxy.wire st
                 ++ Proxy.send_as (Proxy.socket_in_use st)
                      (firstn k1 lines))
                ++ Proxy.send_as (Proxy.made_after st)
                     (firstn k2 lines))%list.
Proof.
  intros is_delta_counter get_delta_name self now reg timestamp st.
  set (effective := if truthy_int timestamp then timestamp else Some now).
  destruct (collect_keys_rendered is_delta_counter get_delta_name self
              effective (dump_metrics reg) reg)
    as [deltas [Hlen Hlines]].
  assert (Hsegment :
            segment_of effective
            = match timestamp with
              | Some t =>
                  if t =? 0 then (if now =? 0 then None else Some now)
                  else Some t
              | None => if now =? 0 then None else Some now
              end).
  { unfold effective, segment_of.
    destruct timestamp as [t|]; cbn;
      [destruct (Z.eqb_spec t 0) as [->|Ht]; cbn|];
      try (destruct (Z.eqb_spec now 0) as [->|Hn]; cbn; reflexivity).
    destruct (Z.eqb_spec t 0); [contradiction | reflexivity]. }
  rewrite Hsegment in Hlines.
  fold (_collect_metrics is_delta_counter get_delta_name self reg effective)
    in Hlines.
  eexists deltas, _. split; [exact Hlen|]. split; [reflexivity|].
  unfold Proxy.report_now. fold effective.
  destruct (_collect_metrics is_delta_counter get_delta_name self reg
                             effective) as [reg1 lines].
  cbn [snd fst] in *. rewrite <- Hlines.
  split; [now destruct lines|].
  destruct lines as [|line lines]; cbn [snd].
  - exists 0%nat, 0%nat. cbn. now rewrite !app_nil_r.
  - apply report_points_wire.
Qed.
